(** * GoReSym moduledata layout registry, field decoder, parser and validator

    A shallow embedding of [objfile/moduledata_layout.go] and
    [check/refactor/moduledata_parser.go] (with the helpers of its test
    file), and the properties of the specification checked against it.

    Conventions of the embedding:
    - a Go [uint64] is a [Z]; where the source adds two of them the
      wrap-around modulo [2^64] is written out ([wrap64]);
    - a Go [[]byte] is a [byteslice]: the elements below its length and the
      elements of the backing array between its length and its capacity,
      so that a slice expression can be followed exactly;
    - a Go function returning [(T, error)] returns a [result T]: a value, an
      [error], or a run-time panic (an index or slice expression out of
      range). *)

From Stdlib Require Import ZArith Lia.
From coqutil Require Import Byte.
From stdpp Require Import base option list strings gmap.

Local Open Scope Z_scope.

(** ** Unsigned machine integers *)

Definition wrap64 (z : Z) : Z := z mod 2 ^ 64.
Definition wrap32 (z : Z) : Z := z mod 2 ^ 32.

(** [math.MaxInt] on a 64-bit platform: the largest length a slice can have. *)
Definition MaxInt : Z := 2 ^ 63 - 1.

Infix ".|" := Z.lor (at level 50, left associativity).
Infix "<<" := Z.shiftl (at level 35).
Infix ">>" := Z.shiftr (at level 35).

(** ** Errors and results *)

(** The errors the two source files build with [fmt.Errorf], one constructor
    per format string, carrying the formatted operands. *)
Inductive error : Type :=
| FieldExceeds (offset size len : Z)
    (* "field offset %d + size %d exceeds data length %d" *)
| UnsupportedFieldSize (size : Z)
    (* "unsupported field size: %d" *)
| SliceExceeds (offset size len : Z)
    (* "slice offset %d + size %d exceeds data length %d" *)
| FailedToRead (field : string) (cause : error)
    (* "failed to read <field> field: %v" *)
| TextVAMismatch (textVA firstFuncEntry : Z)
    (* "TextVA value %x does not match first function entry %x" *)
| InvalidSlice (field : string) (len capacity : Z).
    (* "invalid <field> slice: len %d > capacity %d" *)

Inductive result (A : Type) : Type :=
| Ok (a : A)
| Err (e : error)
| Panic.
Arguments Ok {A} a.
Arguments Err {A} e.
Arguments Panic {A}.

#[global] Instance result_ret : MRet result := fun _ a => Ok a.
#[global] Instance result_bind : MBind result := fun _ _ f m =>
  match m with
  | Ok a => f a
  | Err e => Err e
  | Panic => Panic
  end.

(** ** Byte slices *)

Record byteslice : Type := MkSlice {
  elems : list byte;   (* s[0], ..., s[len(s)-1] *)
  beyond : list byte;  (* the backing array from len(s) up to cap(s) *)
}.

Definition len (s : byteslice) : Z := Z.of_nat (length (elems s)).
Definition cap (s : byteslice) : Z :=
  Z.of_nat (length (elems s) + length (beyond s)).

(** [make([]byte, n)] *)
Definition make (n : nat) : byteslice :=
  {| elems := replicate n Byte.x00; beyond := [] |}.

(** The slice expression [s[lo:hi]] with unsigned operands: it panics unless
    [lo <= hi <= cap(s)], and the result shares the backing array. *)
Definition subslice (s : byteslice) (lo hi : Z) : result byteslice :=
  if (0 <=? lo) && (lo <=? hi) && (hi <=? cap s) then
    let arr := elems s ++ beyond s in
    Ok {| elems := take (Z.to_nat (hi - lo)) (drop (Z.to_nat lo) arr);
          beyond := drop (Z.to_nat hi) arr |}
  else Panic.

(** The assignment [b[i] = x] where [b] is [buf[off:]]: the write lands in
    the array of [buf]. The callers below check the index first. *)
Definition store (buf : byteslice) (off i : Z) (x : byte) : byteslice :=
  {| elems := <[Z.to_nat (off + i) := x]> (elems buf); beyond := beyond buf |}.

(** ** encoding/binary

    The functions of Go's standard package [encoding/binary] that the
    sources call, as the package defines them: [Uint32] and [Uint64] index
    the last byte they need first (a panic on a shorter slice) and combine
    the bytes with shifts and ors; [PutUint32] and [PutUint64] do the same
    check and store the bytes one by one. *)

Definition u8 (b : byte) : Z := byte.unsigned b.

Module binary.

Module LittleEndian.

Definition Uint32 (b : byteslice) : result Z :=
  match elems b with
  | b0 :: b1 :: b2 :: b3 :: _ =>
      Ok (u8 b0 .| u8 b1 << 8 .| u8 b2 << 16 .| u8 b3 << 24)
  | _ => Panic
  end.

Definition Uint64 (b : byteslice) : result Z :=
  match elems b with
  | b0 :: b1 :: b2 :: b3 :: b4 :: b5 :: b6 :: b7 :: _ =>
      Ok (u8 b0 .| u8 b1 << 8 .| u8 b2 << 16 .| u8 b3 << 24 .|
          u8 b4 << 32 .| u8 b5 << 40 .| u8 b6 << 48 .| u8 b7 << 56)
  | _ => Panic
  end.

(** [PutUint32(buf[off:], v)] *)
Definition PutUint32 (buf : byteslice) (off v : Z) : result byteslice :=
  if (0 <=? off) && (off <=? len buf) && (4 <=? len buf - off) then
    let buf := store buf off 0 (byte.of_Z v) in
    let buf := store buf off 1 (byte.of_Z (v >> 8)) in
    let buf := store buf off 2 (byte.of_Z (v >> 16)) in
    let buf := store buf off 3 (byte.of_Z (v >> 24)) in
    Ok buf
  else Panic.

(** [PutUint64(buf[off:], v)] *)
Definition PutUint64 (buf : byteslice) (off v : Z) : result byteslice :=
  if (0 <=? off) && (off <=? len buf) && (8 <=? len buf - off) then
    let buf := store buf off 0 (byte.of_Z v) in
    let buf := store buf off 1 (byte.of_Z (v >> 8)) in
    let buf := store buf off 2 (byte.of_Z (v >> 16)) in
    let buf := store buf off 3 (byte.of_Z (v >> 24)) in
    let buf := store buf off 4 (byte.of_Z (v >> 32)) in
    let buf := store buf off 5 (byte.of_Z (v >> 40)) in
    let buf := store buf off 6 (byte.of_Z (v >> 48)) in
    let buf := store buf off 7 (byte.of_Z (v >> 56)) in
    Ok buf
  else Panic.

End LittleEndian.

Module BigEndian.

Definition Uint32 (b : byteslice) : result Z :=
  match elems b with
  | b0 :: b1 :: b2 :: b3 :: _ =>
      Ok (u8 b3 .| u8 b2 << 8 .| u8 b1 << 16 .| u8 b0 << 24)
  | _ => Panic
  end.

Definition Uint64 (b : byteslice) : result Z :=
  match elems b with
  | b0 :: b1 :: b2 :: b3 :: b4 :: b5 :: b6 :: b7 :: _ =>
      Ok (u8 b7 .| u8 b6 << 8 .| u8 b5 << 16 .| u8 b4 << 24 .|
          u8 b3 << 32 .| u8 b2 << 40 .| u8 b1 << 48 .| u8 b0 << 56)
  | _ => Panic
  end.

(** [PutUint32(buf[off:], v)] *)
Definition PutUint32 (buf : byteslice) (off v : Z) : result byteslice :=
  if (0 <=? off) && (off <=? len buf) && (4 <=? len buf - off) then
    let buf := store buf off 0 (byte.of_Z (v >> 24)) in
    let buf := store buf off 1 (byte.of_Z (v >> 16)) in
    let buf := store buf off 2 (byte.of_Z (v >> 8)) in
    let buf := store buf off 3 (byte.of_Z v) in
    Ok buf
  else Panic.

(** [PutUint64(buf[off:], v)] *)
Definition PutUint64 (buf : byteslice) (off v : Z) : result byteslice :=
  if (0 <=? off) && (off <=? len buf) && (8 <=? len buf - off) then
    let buf := store buf off 0 (byte.of_Z (v >> 56)) in
    let buf := store buf off 1 (byte.of_Z (v >> 48)) in
    let buf := store buf off 2 (byte.of_Z (v >> 40)) in
    let buf := store buf off 3 (byte.of_Z (v >> 32)) in
    let buf := store buf off 4 (byte.of_Z (v >> 24)) in
    let buf := store buf off 5 (byte.of_Z (v >> 16)) in
    let buf := store buf off 6 (byte.of_Z (v >> 8)) in
    let buf := store buf off 7 (byte.of_Z v) in
    Ok buf
  else Panic.

End BigEndian.

End binary.

(** ** strings

    The two functions of Go's standard package [strings] the parser calls. *)

Module strings.

(** [strings.HasPrefix(s, prefix)] *)
Definition HasPrefix (s prefix : string) : bool := String.prefix prefix s.

(** [strings.Compare(a, b)]: byte-wise lexicographic, -1, 0 or +1. *)
Definition Compare (a b : string) : Z :=
  match String.compare a b with
  | Lt => -1
  | Eq => 0
  | Gt => 1
  end.

End strings.

(** ** moduledata_layout.go: the layout registry *)

(** FieldOffset represents the offset of a field in the moduledata
    structure; [Size = 0] marks a field the layout does not have. *)
Record FieldOffset : Type := MkFieldOffset {
  Offset : Z;
  Size : Z;
}.

(** The zero value of [FieldOffset], which a composite literal gives to
    every field it does not name. *)
Definition noField : FieldOffset := {| Offset := 0; Size := 0 |}.

Module ModuleDataLayout.

Record t : Type := mk {
  Text : FieldOffset;
  Types : FieldOffset;
  ETypes : FieldOffset;
  Typelinks : FieldOffset;
  ITablinks : FieldOffset;
  Ftab : FieldOffset;
  Minpc : FieldOffset;
  Textsectmap : FieldOffset;
  LegacyTypes : FieldOffset;
  Rodata : FieldOffset;
  Gofunc : FieldOffset;
  Covctrs : FieldOffset;
  Ecovctrs : FieldOffset;
  InitTasks : FieldOffset;
  PtrSize : Z;
}.

(** The fields read with [readField] and those read with [readSlice]. *)
Definition scalars (l : t) : list FieldOffset :=
  [Text l; Types l; ETypes l; Minpc l; Rodata l; Gofunc l; Covctrs l;
   Ecovctrs l].
Definition slices (l : t) : list FieldOffset :=
  [Typelinks l; ITablinks l; Ftab l; Textsectmap l; LegacyTypes l;
   InitTasks l].
Definition fields (l : t) : list FieldOffset := scalars l ++ slices l.

End ModuleDataLayout.

Import ModuleDataLayout(Text, Types, ETypes, Typelinks, ITablinks, Ftab,
  Minpc, Textsectmap, LegacyTypes, Rodata, Gofunc, Covctrs, Ecovctrs,
  InitTasks, PtrSize).

Notation "'FO' o s" := (MkFieldOffset o s)
  (at level 10, o at level 9, s at level 9, only parsing).

(** The composite literal of [versionLayoutMap], entry by entry. *)
Definition versionLayoutEntries : list (string * ModuleDataLayout.t) := [
  (* Go 1.5-1.6 layout (32-bit) *)
  ("1.5", {|
    Text := FO 0x40 4; Types := FO 0x0 0; ETypes := FO 0x0 0;
    Typelinks := FO 0x60 12; ITablinks := FO 0x0 0; Ftab := FO 0x8 12;
    Minpc := FO 0x20 4; Textsectmap := FO 0x0 0;
    LegacyTypes := FO 0x60 12;
    Rodata := noField; Gofunc := noField; Covctrs := noField;
    Ecovctrs := noField; InitTasks := noField;
    PtrSize := 4 |});
  (* Go 1.5-1.6 layout (64-bit) *)
  ("1.5_64", {|
    Text := FO 0x80 8; Types := FO 0x0 0; ETypes := FO 0x0 0;
    Typelinks := FO 0xc0 24; ITablinks := FO 0x0 0; Ftab := FO 0x10 24;
    Minpc := FO 0x40 8; Textsectmap := FO 0x0 0;
    LegacyTypes := FO 0xc0 24;
    Rodata := noField; Gofunc := noField; Covctrs := noField;
    Ecovctrs := noField; InitTasks := noField;
    PtrSize := 8 |});
  (* Go 1.7-1.17 layout (32-bit) *)
  ("1.7", {|
    Text := FO 0x40 4; Types := FO 0x60 4; ETypes := FO 0x64 4;
    Typelinks := FO 0x68 12; ITablinks := FO 0x74 12; Ftab := FO 0x8 12;
    Minpc := FO 0x20 4; Textsectmap := FO 0x0 0;
    LegacyTypes := noField;
    Rodata := noField; Gofunc := noField; Covctrs := noField;
    Ecovctrs := noField; InitTasks := noField;
    PtrSize := 4 |});
  (* Go 1.7-1.17 layout (64-bit) *)
  ("1.7_64", {|
    Text := FO 0x80 8; Types := FO 0xc0 8; ETypes := FO 0xc8 8;
    Typelinks := FO 0xd0 24; ITablinks := FO 0xe8 24; Ftab := FO 0x10 24;
    Minpc := FO 0x40 8; Textsectmap := FO 0x0 0;
    LegacyTypes := noField;
    Rodata := noField; Gofunc := noField; Covctrs := noField;
    Ecovctrs := noField; InitTasks := noField;
    PtrSize := 8 |});
  (* Go 1.18-1.19 layout (32-bit) *)
  ("1.18", {|
    Text := FO 0x40 4; Types := FO 0x60 4; ETypes := FO 0x64 4;
    Typelinks := FO 0x68 12; ITablinks := FO 0x74 12; Ftab := FO 0x8 12;
    Minpc := FO 0x20 4; Textsectmap := FO 0x80 12;
    LegacyTypes := noField;
    Rodata := FO 0x70 4; Gofunc := FO 0x74 4; Covctrs := noField;
    Ecovctrs := noField; InitTasks := noField;
    PtrSize := 4 |});
  (* Go 1.18-1.19 layout (64-bit) *)
  ("1.18_64", {|
    Text := FO 0x80 8; Types := FO 0xc0 8; ETypes := FO 0xc8 8;
    Typelinks := FO 0xd0 24; ITablinks := FO 0xe8 24; Ftab := FO 0x10 24;
    Minpc := FO 0x40 8; Textsectmap := FO 0x100 24;
    LegacyTypes := noField;
    Rodata := FO 0xe0 8; Gofunc := FO 0xe8 8; Covctrs := noField;
    Ecovctrs := noField; InitTasks := noField;
    PtrSize := 8 |});
  (* Go 1.20-1.21 layout (32-bit) *)
  ("1.20", {|
    Text := FO 0x40 4; Types := FO 0x60 4; ETypes := FO 0x64 4;
    Typelinks := FO 0x68 12; ITablinks := FO 0x74 12; Ftab := FO 0x8 12;
    Minpc := FO 0x20 4; Textsectmap := FO 0x80 12;
    LegacyTypes := noField;
    Rodata := FO 0x70 4; Gofunc := FO 0x74 4; Covctrs := FO 0x78 4;
    Ecovctrs := FO 0x7c 4; InitTasks := noField;
    PtrSize := 4 |});
  (* Go 1.20-1.21 layout (64-bit) *)
  ("1.20_64", {|
    Text := FO 0x80 8; Types := FO 0xc0 8; ETypes := FO 0xc8 8;
    Typelinks := FO 0xd0 24; ITablinks := FO 0xe8 24; Ftab := FO 0x10 24;
    Minpc := FO 0x40 8; Textsectmap := FO 0x100 24;
    LegacyTypes := noField;
    Rodata := FO 0xe0 8; Gofunc := FO 0xe8 8; Covctrs := FO 0xf0 8;
    Ecovctrs := FO 0xf8 8; InitTasks := noField;
    PtrSize := 8 |});
  (* Go 1.22 layout (32-bit) *)
  ("1.22", {|
    Text := FO 0x40 4; Types := FO 0x60 4; ETypes := FO 0x64 4;
    Typelinks := FO 0x68 12; ITablinks := FO 0x74 12; Ftab := FO 0x8 12;
    Minpc := FO 0x20 4; Textsectmap := FO 0x80 12;
    LegacyTypes := noField;
    Rodata := FO 0x70 4; Gofunc := FO 0x74 4; Covctrs := FO 0x78 4;
    Ecovctrs := FO 0x7c 4; InitTasks := FO 0x8c 12;
    PtrSize := 4 |});
  (* Go 1.22 layout (64-bit) *)
  ("1.22_64", {|
    Text := FO 0x80 8; Types := FO 0xc0 8; ETypes := FO 0xc8 8;
    Typelinks := FO 0xd0 24; ITablinks := FO 0xe8 24; Ftab := FO 0x10 24;
    Minpc := FO 0x40 8; Textsectmap := FO 0x100 24;
    LegacyTypes := noField;
    Rodata := FO 0xe0 8; Gofunc := FO 0xe8 8; Covctrs := FO 0xf0 8;
    Ecovctrs := FO 0xf8 8; InitTasks := FO 0x118 24;
    PtrSize := 8 |})
].

(** versionLayoutMap maps Go versions to their corresponding moduledata
    layouts. *)
Definition versionLayoutMap : gmap string ModuleDataLayout.t :=
  list_to_map versionLayoutEntries.

(** The layout returned for a key that is not in the map:
    [ModuleDataLayout{PtrSize: 4}]. *)
Definition defaultLayout : ModuleDataLayout.t := {|
  Text := noField; Types := noField; ETypes := noField;
  Typelinks := noField; ITablinks := noField; Ftab := noField;
  Minpc := noField; Textsectmap := noField; LegacyTypes := noField;
  Rodata := noField; Gofunc := noField; Covctrs := noField;
  Ecovctrs := noField; InitTasks := noField;
  PtrSize := 4 |}.

(** The key [getLayout] looks up. *)
Definition layoutKey (version : string) (is64bit : bool) : string :=
  if is64bit then version +:+ "_64" else version.

(** getLayout returns the appropriate ModuleDataLayout for the given version
    and architecture. *)
Definition getLayout (version : string) (is64bit : bool) : ModuleDataLayout.t :=
  match versionLayoutMap !! layoutKey version is64bit with
  | Some layout => layout
  | None => defaultLayout
  end.

(** ** moduledata_layout.go: the field decoder *)

(** Modelled from the spec: the declarations of the types [GoSlice64] and
    [pvoid64] are not among the source files; a slice descriptor is the
    triple (data, length, capacity) of the spec's data model, with the field
    names [readSlice] assigns, and [pvoid64] is an address-sized unsigned
    integer, so the conversion [pvoid64(x)] keeps the value. *)
Module GoSlice64.

Record t : Type := mk {
  Data : Z;
  Len : Z;
  Capacity : Z;
}.

(** The zero value [GoSlice64{}]. *)
Definition zero : t := {| Data := 0; Len := 0; Capacity := 0 |}.

End GoSlice64.

Definition pvoid64 (x : Z) : Z := x.

(** readField reads a field from the moduledata byte slice using the given
    offset. *)
Definition readField (data : byteslice) (offset : FieldOffset)
    (littleEndian : bool) : result Z :=
  if Size offset =? 0 then Ok 0
  else if wrap64 (Offset offset + Size offset) >? wrap64 (len data) then
    Err (FieldExceeds (Offset offset) (Size offset) (len data))
  else
    fieldData ← subslice data (Offset offset)
                  (wrap64 (Offset offset + Size offset));
    if Size offset =? 8 then
      if littleEndian then binary.LittleEndian.Uint64 fieldData
      else binary.BigEndian.Uint64 fieldData
    else if Size offset =? 4 then
      if littleEndian then binary.LittleEndian.Uint32 fieldData
      else binary.BigEndian.Uint32 fieldData
    else Err (UnsupportedFieldSize (Size offset)).

(** readSlice reads a GoSlice from the moduledata byte slice using the given
    offset. *)
Definition readSlice (data : byteslice) (offset : FieldOffset) (ptrSize : Z)
    (littleEndian : bool) : result GoSlice64.t :=
  if Size offset =? 0 then Ok GoSlice64.zero
  else if wrap64 (Offset offset + Size offset) >? wrap64 (len data) then
    Err (SliceExceeds (Offset offset) (Size offset) (len data))
  else
    sliceData ← subslice data (Offset offset)
                  (wrap64 (Offset offset + Size offset));
    if ptrSize =? 8 then
      if littleEndian then
        d ← subslice sliceData 0 8 ≫= binary.LittleEndian.Uint64;
        l ← subslice sliceData 8 16 ≫= binary.LittleEndian.Uint64;
        c ← subslice sliceData 16 24 ≫= binary.LittleEndian.Uint64;
        Ok {| GoSlice64.Data := pvoid64 d; GoSlice64.Len := l;
              GoSlice64.Capacity := c |}
      else
        d ← subslice sliceData 0 8 ≫= binary.BigEndian.Uint64;
        l ← subslice sliceData 8 16 ≫= binary.BigEndian.Uint64;
        c ← subslice sliceData 16 24 ≫= binary.BigEndian.Uint64;
        Ok {| GoSlice64.Data := pvoid64 d; GoSlice64.Len := l;
              GoSlice64.Capacity := c |}
    else
      if littleEndian then
        d ← subslice sliceData 0 4 ≫= binary.LittleEndian.Uint32;
        l ← subslice sliceData 4 8 ≫= binary.LittleEndian.Uint32;
        c ← subslice sliceData 8 12 ≫= binary.LittleEndian.Uint32;
        Ok {| GoSlice64.Data := pvoid64 d; GoSlice64.Len := l;
              GoSlice64.Capacity := c |}
      else
        d ← subslice sliceData 0 4 ≫= binary.BigEndian.Uint32;
        l ← subslice sliceData 4 8 ≫= binary.BigEndian.Uint32;
        c ← subslice sliceData 8 12 ≫= binary.BigEndian.Uint32;
        Ok {| GoSlice64.Data := pvoid64 d; GoSlice64.Len := l;
              GoSlice64.Capacity := c |}.

(** ** moduledata_parser.go *)

(** Modelled from the spec: the declaration of the type [ModuleData] is not
    among the source files; the record has the scalar and slice fields of
    the spec's module record, under the names [ParseModuleData] assigns. *)
Module ModuleData.

Record t : Type := mk {
  TextVA : Z;
  Types : Z;
  ETypes : Z;
  Typelinks : GoSlice64.t;
  ITablinks : GoSlice64.t;
  LegacyTypes : GoSlice64.t;
  Rodata : Z;
  Gofunc : Z;
  Covctrs : Z;
  Ecovctrs : Z;
  InitTasks : GoSlice64.t;
}.

(** The zero value [ModuleData{}]. *)
Definition zero : t :=
  mk 0 0 0 GoSlice64.zero GoSlice64.zero GoSlice64.zero 0 0 0 0
     GoSlice64.zero.

(** Field assignments [md.F = v]. *)
Definition set_TextVA (v : Z) (md : t) : t :=
  mk v (Types md) (ETypes md) (Typelinks md) (ITablinks md) (LegacyTypes md)
     (Rodata md) (Gofunc md) (Covctrs md) (Ecovctrs md) (InitTasks md).
Definition set_Types (v : Z) (md : t) : t :=
  mk (TextVA md) v (ETypes md) (Typelinks md) (ITablinks md) (LegacyTypes md)
     (Rodata md) (Gofunc md) (Covctrs md) (Ecovctrs md) (InitTasks md).
Definition set_ETypes (v : Z) (md : t) : t :=
  mk (TextVA md) (Types md) v (Typelinks md) (ITablinks md) (LegacyTypes md)
     (Rodata md) (Gofunc md) (Covctrs md) (Ecovctrs md) (InitTasks md).
Definition set_Typelinks (v : GoSlice64.t) (md : t) : t :=
  mk (TextVA md) (Types md) (ETypes md) v (ITablinks md) (LegacyTypes md)
     (Rodata md) (Gofunc md) (Covctrs md) (Ecovctrs md) (InitTasks md).
Definition set_ITablinks (v : GoSlice64.t) (md : t) : t :=
  mk (TextVA md) (Types md) (ETypes md) (Typelinks md) v (LegacyTypes md)
     (Rodata md) (Gofunc md) (Covctrs md) (Ecovctrs md) (InitTasks md).
Definition set_LegacyTypes (v : GoSlice64.t) (md : t) : t :=
  mk (TextVA md) (Types md) (ETypes md) (Typelinks md) (ITablinks md) v
     (Rodata md) (Gofunc md) (Covctrs md) (Ecovctrs md) (InitTasks md).
Definition set_Rodata (v : Z) (md : t) : t :=
  mk (TextVA md) (Types md) (ETypes md) (Typelinks md) (ITablinks md)
     (LegacyTypes md) v (Gofunc md) (Covctrs md) (Ecovctrs md) (InitTasks md).
Definition set_Gofunc (v : Z) (md : t) : t :=
  mk (TextVA md) (Types md) (ETypes md) (Typelinks md) (ITablinks md)
     (LegacyTypes md) (Rodata md) v (Covctrs md) (Ecovctrs md) (InitTasks md).
Definition set_Covctrs (v : Z) (md : t) : t :=
  mk (TextVA md) (Types md) (ETypes md) (Typelinks md) (ITablinks md)
     (LegacyTypes md) (Rodata md) (Gofunc md) v (Ecovctrs md) (InitTasks md).
Definition set_Ecovctrs (v : Z) (md : t) : t :=
  mk (TextVA md) (Types md) (ETypes md) (Typelinks md) (ITablinks md)
     (LegacyTypes md) (Rodata md) (Gofunc md) (Covctrs md) v (InitTasks md).
Definition set_InitTasks (v : GoSlice64.t) (md : t) : t :=
  mk (TextVA md) (Types md) (ETypes md) (Typelinks md) (ITablinks md)
     (LegacyTypes md) (Rodata md) (Gofunc md) (Covctrs md) (Ecovctrs md) v.

End ModuleData.

(** [v, err = read; if err != nil { return nil, fmt.Errorf("failed to read
    <field> field: %v", err) }] *)
Definition orFailedToRead {A} (field : string) (r : result A) : result A :=
  match r with
  | Ok a => Ok a
  | Err e => Err (FailedToRead field e)
  | Panic => Panic
  end.

(** ParseModuleData parses the moduledata structure using the offset-based
    approach. *)
Definition ParseModuleData (data : byteslice) (version : string)
    (is64bit littleEndian : bool) : result ModuleData.t :=
  let layout := getLayout version is64bit in
  let md := ModuleData.zero in
  (* Parse common fields *)
  v ← orFailedToRead "TextVA" (readField data (Text layout) littleEndian);
  let md := ModuleData.set_TextVA v md in
  v ← orFailedToRead "Types" (readField data (Types layout) littleEndian);
  let md := ModuleData.set_Types v md in
  v ← orFailedToRead "ETypes" (readField data (ETypes layout) littleEndian);
  let md := ModuleData.set_ETypes v md in
  s ← orFailedToRead "Typelinks"
        (readSlice data (Typelinks layout) (PtrSize layout) littleEndian);
  let md := ModuleData.set_Typelinks s md in
  s ← orFailedToRead "ITablinks"
        (readSlice data (ITablinks layout) (PtrSize layout) littleEndian);
  let md := ModuleData.set_ITablinks s md in
  (* Parse version-specific fields *)
  if strings.HasPrefix version "1.5" then
    (* Go 1.5-1.6 specific fields *)
    s ← orFailedToRead "LegacyTypes"
          (readSlice data (LegacyTypes layout) (PtrSize layout) littleEndian);
    Ok (ModuleData.set_LegacyTypes s md)
  else if strings.Compare version "1.7" >=? 0 then
    (* Go 1.7+ specific fields *)
    v ← orFailedToRead "Rodata" (readField data (Rodata layout) littleEndian);
    let md := ModuleData.set_Rodata v md in
    v ← orFailedToRead "Gofunc" (readField data (Gofunc layout) littleEndian);
    let md := ModuleData.set_Gofunc v md in
    if strings.Compare version "1.20" >=? 0 then
      (* Go 1.20+ specific fields *)
      v ← orFailedToRead "Covctrs"
            (readField data (Covctrs layout) littleEndian);
      let md := ModuleData.set_Covctrs v md in
      v ← orFailedToRead "Ecovctrs"
            (readField data (Ecovctrs layout) littleEndian);
      let md := ModuleData.set_Ecovctrs v md in
      if strings.Compare version "1.22" >=? 0 then
        (* Go 1.22+ specific fields *)
        s ← orFailedToRead "InitTasks"
              (readSlice data (InitTasks layout) (PtrSize layout) littleEndian);
        Ok (ModuleData.set_InitTasks s md)
      else Ok md
    else Ok md
  else Ok md.

(** ValidateModuleData performs validation checks on the parsed moduledata;
    [None] is the [nil] error. The argument is the record [md] points to. *)
Definition ValidateModuleData (md : ModuleData.t) (firstFuncEntry : Z)
    : option error :=
  if negb (ModuleData.TextVA md =? firstFuncEntry) then
    Some (TextVAMismatch (ModuleData.TextVA md) firstFuncEntry)
  else if GoSlice64.Len (ModuleData.Typelinks md)
          >? GoSlice64.Capacity (ModuleData.Typelinks md) then
    Some (InvalidSlice "Typelinks" (GoSlice64.Len (ModuleData.Typelinks md))
            (GoSlice64.Capacity (ModuleData.Typelinks md)))
  else if GoSlice64.Len (ModuleData.ITablinks md)
          >? GoSlice64.Capacity (ModuleData.ITablinks md) then
    Some (InvalidSlice "ITablinks" (GoSlice64.Len (ModuleData.ITablinks md))
            (GoSlice64.Capacity (ModuleData.ITablinks md)))
  else if GoSlice64.Len (ModuleData.LegacyTypes md)
          >? GoSlice64.Capacity (ModuleData.LegacyTypes md) then
    Some (InvalidSlice "LegacyTypes"
            (GoSlice64.Len (ModuleData.LegacyTypes md))
            (GoSlice64.Capacity (ModuleData.LegacyTypes md)))
  else if GoSlice64.Len (ModuleData.InitTasks md)
          >? GoSlice64.Capacity (ModuleData.InitTasks md) then
    Some (InvalidSlice "InitTasks" (GoSlice64.Len (ModuleData.InitTasks md))
            (GoSlice64.Capacity (ModuleData.InitTasks md)))
  else None.

(** ** moduledata_parser.go, test helpers *)

(** The closure [writeAt] of [createTestModuleData], with the buffer it
    writes to passed and returned: a helper function to write a value at an
    offset. *)
Definition writeAt (is64bit : bool) (buf : byteslice) (offset : FieldOffset)
    (value : Z) : result byteslice :=
  if Size offset =? 0 then Ok buf (* Skip writing if field doesn't exist *)
  else if is64bit then binary.LittleEndian.PutUint64 buf (Offset offset) value
  else binary.LittleEndian.PutUint32 buf (Offset offset) (wrap32 value).

(** The closure [writeSlice] of [createTestModuleData]: a helper function to
    write a slice at an offset. *)
Definition writeSlice (is64bit : bool) (buf : byteslice)
    (offset : FieldOffset) (data length capacity : Z) : result byteslice :=
  if Size offset =? 0 then Ok buf (* Skip writing if field doesn't exist *)
  else if is64bit then
    buf ← binary.LittleEndian.PutUint64 buf (Offset offset) data;
    buf ← binary.LittleEndian.PutUint64 buf
            (wrap64 (Offset offset + 8)) length;
    binary.LittleEndian.PutUint64 buf (wrap64 (Offset offset + 16)) capacity
  else
    buf ← binary.LittleEndian.PutUint32 buf (Offset offset) (wrap32 data);
    buf ← binary.LittleEndian.PutUint32 buf
            (wrap64 (Offset offset + 4)) (wrap32 length);
    binary.LittleEndian.PutUint32 buf (wrap64 (Offset offset + 8))
      (wrap32 capacity).

(** createTestModuleData creates a byte slice containing test moduledata for
    a specific version and architecture. The comparisons [version >= "..."]
    are Go's string comparisons, byte-wise lexicographic. *)
Definition createTestModuleData (version : string) (is64bit : bool)
    : result byteslice :=
  let buf := make 1024 in
  let layout := getLayout version is64bit in
  (* Write common fields *)
  buf ← writeAt is64bit buf (Text layout) 0x1000;
  buf ← writeAt is64bit buf (Types layout) 0x2000;
  buf ← writeAt is64bit buf (ETypes layout) 0x3000;
  buf ← writeAt is64bit buf (Minpc layout) 0x4000;
  (* Write slice fields *)
  buf ← writeSlice is64bit buf (Typelinks layout) 0x5000 10 20;
  buf ← writeSlice is64bit buf (ITablinks layout) 0x6000 15 25;
  buf ← writeSlice is64bit buf (Ftab layout) 0x7000 20 30;
  (* Write version-specific fields *)
  if String.eqb version "1.5" then
    writeSlice is64bit buf (LegacyTypes layout) 0x8000 10 20
  else if String.leb "1.18" version then
    buf ← writeAt is64bit buf (Rodata layout) 0x9000;
    buf ← writeAt is64bit buf (Gofunc layout) 0xa000;
    if String.leb "1.20" version then
      buf ← writeAt is64bit buf (Covctrs layout) 0xb000;
      buf ← writeAt is64bit buf (Ecovctrs layout) 0xc000;
      if String.leb "1.22" version then
        writeSlice is64bit buf (InitTasks layout) 0xd000 5 10
      else Ok buf
    else Ok buf
  else Ok buf.

(** The record the repository's test [TestModuleDataParsing] expects for
    "Go 1.22 64-bit". *)
Definition expected_1_22_64 : ModuleData.t := {|
  ModuleData.TextVA := 0x1000;
  ModuleData.Types := 0x2000;
  ModuleData.ETypes := 0x3000;
  ModuleData.Typelinks := GoSlice64.mk 0x5000 10 20;
  ModuleData.ITablinks := GoSlice64.mk 0x6000 15 25;
  ModuleData.LegacyTypes := GoSlice64.zero;
  ModuleData.Rodata := 0x9000;
  ModuleData.Gofunc := 0xa000;
  ModuleData.Covctrs := 0xb000;
  ModuleData.Ecovctrs := 0xc000;
  ModuleData.InitTasks := GoSlice64.mk 0xd000 5 10;
|}.

(** The buffer of the specification's scenario: 1024 zero bytes, then the
    text start [0x1000] and the init-tasks slice [(0xd000, 5, 10)] written
    at the offsets of the layout of version 1.22, 64-bit. *)
Definition scenarioBuffer : result byteslice :=
  let layout := getLayout "1.22" true in
  buf ← writeAt true (make 1024) (Text layout) 0x1000;
  writeSlice true buf (InitTasks layout) 0xd000 5 10.

(** The writer of the round-trip property: the value [v] stored at the
    field's offset in the field's width (4 or 8 bytes) and the chosen byte
    order, with the [Put] function that mirrors the [Uint] function
    [readField] decodes with. *)
Definition putField (buf : byteslice) (offset : FieldOffset)
    (littleEndian : bool) (v : Z) : result byteslice :=
  if Size offset =? 8 then
    if littleEndian then binary.LittleEndian.PutUint64 buf (Offset offset) v
    else binary.BigEndian.PutUint64 buf (Offset offset) v
  else
    if littleEndian then binary.LittleEndian.PutUint32 buf (Offset offset) v
    else binary.BigEndian.PutUint32 buf (Offset offset) v.

(** ** Properties of a layout *)

(** Every field of the layout is absent. *)
Definition allAbsent (l : ModuleDataLayout.t) : Prop :=
  Forall (λ f, Size f = 0) (ModuleDataLayout.fields l).

(** Scalar fields are one pointer wide and slice fields three pointers wide,
    unless absent. *)
Definition sizesFollowPtrSize (l : ModuleDataLayout.t) : Prop :=
  Forall (λ f, Size f = 0 ∨ Size f = PtrSize l) (ModuleDataLayout.scalars l) ∧
  Forall (λ f, Size f = 0 ∨ Size f = 3 * PtrSize l)
    (ModuleDataLayout.slices l).

#[global] Instance sizesFollowPtrSize_dec l : Decision (sizesFollowPtrSize l).
Proof. unfold sizesFollowPtrSize. apply _. Defined.

(** The conditions under which the validator rejects a record. *)
Definition lenExceedsCap (s : GoSlice64.t) : Prop :=
  GoSlice64.Len s > GoSlice64.Capacity s.

Definition invalidRecord (md : ModuleData.t) (firstFuncEntry : Z) : Prop :=
  ModuleData.TextVA md ≠ firstFuncEntry ∨
  lenExceedsCap (ModuleData.Typelinks md) ∨
  lenExceedsCap (ModuleData.ITablinks md) ∨
  lenExceedsCap (ModuleData.LegacyTypes md) ∨
  lenExceedsCap (ModuleData.InitTasks md).

(** ** Properties of results, layouts and buffers *)

(** One of the two "exceeds data length" errors of the readers. *)
Definition isBoundsError (e : error) : Prop :=
  match e with
  | FieldExceeds _ _ _ | SliceExceeds _ _ _ => True
  | _ => False
  end.

(** The width of the words [readSlice] decodes: 8 bytes when the pointer
    size is 8, and 4 bytes for every other pointer size. *)
Definition wordSize (ptrSize : Z) : Z := if ptrSize =? 8 then 8 else 4.

(** The three words of a descriptor lie below a bound. *)
Definition wordsBelow (bound : Z) (s : GoSlice64.t) : Prop :=
  0 ≤ GoSlice64.Data s < bound ∧ 0 ≤ GoSlice64.Len s < bound ∧
  0 ≤ GoSlice64.Capacity s < bound.

(** The part of [readSlice] that follows its bounds check: the three words
    decoded from [sliceData]. *)
Definition readSliceWords (sliceData : byteslice) (ptrSize : Z)
    (littleEndian : bool) : result GoSlice64.t :=
  if ptrSize =? 8 then
    if littleEndian then
      d ← subslice sliceData 0 8 ≫= binary.LittleEndian.Uint64;
      l ← subslice sliceData 8 16 ≫= binary.LittleEndian.Uint64;
      c ← subslice sliceData 16 24 ≫= binary.LittleEndian.Uint64;
      Ok {| GoSlice64.Data := pvoid64 d; GoSlice64.Len := l;
            GoSlice64.Capacity := c |}
    else
      d ← subslice sliceData 0 8 ≫= binary.BigEndian.Uint64;
      l ← subslice sliceData 8 16 ≫= binary.BigEndian.Uint64;
      c ← subslice sliceData 16 24 ≫= binary.BigEndian.Uint64;
      Ok {| GoSlice64.Data := pvoid64 d; GoSlice64.Len := l;
            GoSlice64.Capacity := c |}
  else
    if littleEndian then
      d ← subslice sliceData 0 4 ≫= binary.LittleEndian.Uint32;
      l ← subslice sliceData 4 8 ≫= binary.LittleEndian.Uint32;
      c ← subslice sliceData 8 12 ≫= binary.LittleEndian.Uint32;
      Ok {| GoSlice64.Data := pvoid64 d; GoSlice64.Len := l;
            GoSlice64.Capacity := c |}
    else
      d ← subslice sliceData 0 4 ≫= binary.BigEndian.Uint32;
      l ← subslice sliceData 4 8 ≫= binary.BigEndian.Uint32;
      c ← subslice sliceData 8 12 ≫= binary.BigEndian.Uint32;
      Ok {| GoSlice64.Data := pvoid64 d; GoSlice64.Len := l;
            GoSlice64.Capacity := c |}.

(** The backing array of [data] from index [off] on, as a slice. *)
Definition arrayFrom (data : byteslice) (off : Z) : byteslice :=
  {| elems := drop (Z.to_nat off) (elems data ++ beyond data); beyond := [] |}.

(** The end of the last field of the registry (the init-tasks slice of
    "1.22_64" ends at [0x118 + 24]). *)
Definition registryExtent : Z := 0x130.

(** A scalar field and a slice field as the readers expect them for a
    pointer size: absent or of the right width, and within the extent. *)
Definition scalarFieldOk (ptrSize : Z) (f : FieldOffset) : Prop :=
  (Size f = 0 ∨ Size f = ptrSize) ∧
  0 ≤ Offset f ∧ Offset f + Size f ≤ registryExtent.

Definition sliceFieldOk (ptrSize : Z) (f : FieldOffset) : Prop :=
  (Size f = 0 ∨ Size f = 3 * ptrSize) ∧
  0 ≤ Offset f ∧ Offset f + Size f ≤ registryExtent.

Definition layoutOk (l : ModuleDataLayout.t) : Prop :=
  (PtrSize l = 4 ∨ PtrSize l = 8) ∧
  Forall (scalarFieldOk (PtrSize l)) (ModuleDataLayout.scalars l) ∧
  Forall (sliceFieldOk (PtrSize l)) (ModuleDataLayout.slices l).

#[global] Instance layoutOk_dec l : Decision (layoutOk l).
Proof. unfold layoutOk, scalarFieldOk, sliceFieldOk. apply _. Defined.

(** The fields of the tiers above the common ones are absent. *)
Definition laterFieldsAbsent (l : ModuleDataLayout.t) : Prop :=
  Size (Rodata l) = 0 ∧ Size (Gofunc l) = 0 ∧ Size (Covctrs l) = 0 ∧
  Size (Ecovctrs l) = 0 ∧ Size (InitTasks l) = 0.

#[global] Instance laterFieldsAbsent_dec l : Decision (laterFieldsAbsent l).
Proof. unfold laterFieldsAbsent. apply _. Defined.

(** The outcomes of a read that is not a panic: a value, or a bounds
    error. *)
Definition valueOrBoundsError {A} (r : result A) : Prop :=
  (∃ a, r = Ok a) ∨ (∃ e, r = Err e ∧ isBoundsError e).

(** A result without its value. *)
Definition outcome {A} (r : result A) : result unit :=
  match r with
  | Ok _ => Ok tt
  | Err e => Err e
  | Panic => Panic
  end.

(** The read [ParseModuleData] performs under a field name, for the layout
    it resolved: [readField] at the field's offset for a scalar, [readSlice]
    with the pointer size of the layout for a slice. Other names are not
    fields of the parser. *)
Definition fieldRead (data : byteslice) (layout : ModuleDataLayout.t)
    (littleEndian : bool) (field : string) : option (result unit) :=
  if String.eqb field "TextVA" then
    Some (outcome (readField data (Text layout) littleEndian))
  else if String.eqb field "Types" then
    Some (outcome (readField data (Types layout) littleEndian))
  else if String.eqb field "ETypes" then
    Some (outcome (readField data (ETypes layout) littleEndian))
  else if String.eqb field "Typelinks" then
    Some (outcome (readSlice data (Typelinks layout) (PtrSize layout)
                     littleEndian))
  else if String.eqb field "ITablinks" then
    Some (outcome (readSlice data (ITablinks layout) (PtrSize layout)
                     littleEndian))
  else if String.eqb field "LegacyTypes" then
    Some (outcome (readSlice data (LegacyTypes layout) (PtrSize layout)
                     littleEndian))
  else if String.eqb field "Rodata" then
    Some (outcome (readField data (Rodata layout) littleEndian))
  else if String.eqb field "Gofunc" then
    Some (outcome (readField data (Gofunc layout) littleEndian))
  else if String.eqb field "Covctrs" then
    Some (outcome (readField data (Covctrs layout) littleEndian))
  else if String.eqb field "Ecovctrs" then
    Some (outcome (readField data (Ecovctrs layout) littleEndian))
  else if String.eqb field "InitTasks" then
    Some (outcome (readSlice data (InitTasks layout) (PtrSize layout)
                     littleEndian))
  else None.

(** The fields [ParseModuleData] reads for a version string, in the order
    of its body: the common fields, then those of the branch of the version
    cascade the string selects. *)
Definition fieldsRead (version : string) : list string :=
  ["TextVA"; "Types"; "ETypes"; "Typelinks"; "ITablinks"] ++
  (if strings.HasPrefix version "1.5" then ["LegacyTypes"]
   else if strings.Compare version "1.7" >=? 0 then
     ["Rodata"; "Gofunc"] ++
     (if strings.Compare version "1.20" >=? 0 then
        ["Covctrs"; "Ecovctrs"] ++
        (if strings.Compare version "1.22" >=? 0 then ["InitTasks"] else [])
      else [])
   else []).

(** A run over the reads [names] that stops at the first failure: either it
    returns a value and every read succeeded, or it returns the bounds error
    of the first read that failed, under the name of that read. *)
Definition stopsAtFirstFailure {B} (names : list string)
    (readOf : string → option (result unit)) (r : result B) : Prop :=
  (∃ b, r = Ok b ∧ Forall (λ f, readOf f = Some (Ok tt)) names) ∨
  (∃ before field after cause,
     names = before ++ field :: after ∧
     Forall (λ f, readOf f = Some (Ok tt)) before ∧
     readOf field = Some (Err cause) ∧
     isBoundsError cause ∧
     r = Err (FailedToRead field cause)).

(** The [k] bytes of the backing array of [b] from index [n] on. *)
Definition window (b : byteslice) (n : Z) (k : nat) : list byte :=
  take k (drop (Z.to_nat n) (elems b ++ beyond b)).

(** The bytes of a 32-bit and of a 64-bit value, least significant first. *)
Definition bytes32 (v : Z) : list byte :=
  [byte.of_Z v; byte.of_Z (v >> 8); byte.of_Z (v >> 16); byte.of_Z (v >> 24)].

Definition bytes64 (v : Z) : list byte :=
  [byte.of_Z v; byte.of_Z (v >> 8); byte.of_Z (v >> 16); byte.of_Z (v >> 24);
   byte.of_Z (v >> 32); byte.of_Z (v >> 40); byte.of_Z (v >> 48);
   byte.of_Z (v >> 56)].

(** The conversion [uint32(v)] where the target is 32-bit, none otherwise:
    what the test helpers store of a value. *)
Definition stored (is64bit : bool) (v : Z) : Z :=
  if is64bit then v else wrap32 v.

(** The number of bytes the test helpers write for one value. *)
Definition writeWidth (is64bit : bool) : Z := if is64bit then 8 else 4.

(** The scalar decoder [readField] applies to a field of [size] bytes. *)
Definition fieldDecoder (size : Z) (littleEndian : bool)
    : byteslice → result Z :=
  if size =? 8 then
    if littleEndian then binary.LittleEndian.Uint64
    else binary.BigEndian.Uint64
  else
    if littleEndian then binary.LittleEndian.Uint32
    else binary.BigEndian.Uint32.

(** The later scalar fields of a layout lie on words of its two common
    slices: read-only data on the capacity word of the type links, the
    go-func blob, the coverage counters and their end on the data, length
    and capacity words of the interface-table links. *)
Definition laterFieldsOnSliceWords (l : ModuleDataLayout.t) : Prop :=
  (Size (Rodata l) = 0 ∨
   Size (Typelinks l) = 3 * PtrSize l ∧ Size (ITablinks l) = 3 * PtrSize l ∧
   Rodata l = MkFieldOffset (Offset (Typelinks l) + 2 * PtrSize l) (PtrSize l) ∧
   Gofunc l = MkFieldOffset (Offset (ITablinks l)) (PtrSize l)) ∧
  (Size (Covctrs l) = 0 ∨
   Size (ITablinks l) = 3 * PtrSize l ∧
   Covctrs l = MkFieldOffset (Offset (ITablinks l) + PtrSize l) (PtrSize l) ∧
   Ecovctrs l
   = MkFieldOffset (Offset (ITablinks l) + 2 * PtrSize l) (PtrSize l)).

#[global] Instance FieldOffset_eq_dec : EqDecision FieldOffset.
Proof. solve_decision. Defined.

#[global] Instance laterFieldsOnSliceWords_dec l :
  Decision (laterFieldsOnSliceWords l).
Proof. unfold laterFieldsOnSliceWords. apply _. Defined.

(** * The layout registry *)

Lemma defaultLayout_allAbsent : allAbsent defaultLayout.
Proof. repeat constructor. Qed.

Lemma getLayout_unknown (version : string) (is64bit : bool) :
  versionLayoutMap !! layoutKey version is64bit = None →
  getLayout version is64bit = defaultLayout.
Proof. intros Hkey. unfold getLayout. by rewrite Hkey. Qed.

Lemma versionLayoutMap_entry key layout :
  versionLayoutMap !! key = Some layout →
  (key, layout) ∈ versionLayoutEntries.
Proof. apply elem_of_list_to_map_2. Qed.

Lemma versionLayoutEntries_sizes :
  Forall (λ kl, sizesFollowPtrSize kl.2) versionLayoutEntries.
Proof. apply (bool_decide_unpack _). vm_compute. reflexivity. Qed.

(** C3, as the code has it: for version "9.99", 64-bit, [getLayout] returns
    the fallback layout, whose pointer width is 4 (not 8) and in which every
    field has size 0. *)
Theorem getLayout_9_99_64bit :
  PtrSize (getLayout "9.99" true) = 4 ∧ allAbsent (getLayout "9.99" true).
Proof.
  rewrite getLayout_unknown by (vm_compute; reflexivity).
  split; [reflexivity | apply defaultLayout_allAbsent].
Qed.

(** C3, as stated, fails: the layout returned for version "9.99", 64-bit,
    does not have pointer width 8. *)
Lemma getLayout_9_99_64bit_not_ptr8 :
  ¬ (PtrSize (getLayout "9.99" true) = 8 ∧ allAbsent (getLayout "9.99" true)).
Proof.
  rewrite getLayout_unknown by (vm_compute; reflexivity).
  intros [Hptr _]. discriminate Hptr.
Qed.

(** C4: for every version and bitness whose lookup key is not in the
    registry, [getLayout] returns the degenerate layout: every field has
    size 0 and the pointer width is 4, whatever the bitness flag. *)
Theorem getLayout_unknown_key (version : string) (is64bit : bool) :
  versionLayoutMap !! layoutKey version is64bit = None →
  allAbsent (getLayout version is64bit) ∧
  PtrSize (getLayout version is64bit) = 4.
Proof.
  intros Hkey. rewrite (getLayout_unknown _ _ Hkey).
  split; [apply defaultLayout_allAbsent | reflexivity].
Qed.

Lemma getLayout_unknown_key_witness :
  versionLayoutMap !! layoutKey "9.99" true = None ∧
  versionLayoutMap !! layoutKey "9.99" false = None ∧
  (allAbsent (getLayout "9.99" true) ∧ PtrSize (getLayout "9.99" true) = 4) ∧
  (allAbsent (getLayout "9.99" false) ∧ PtrSize (getLayout "9.99" false) = 4).
Proof.
  split; [vm_compute; reflexivity |].
  split; [vm_compute; reflexivity |].
  split.
  - apply (getLayout_unknown_key "9.99" true). vm_compute. reflexivity.
  - apply (getLayout_unknown_key "9.99" false). vm_compute. reflexivity.
Defined.

(** C9: in every entry of the registry, every present scalar field is as
    wide as the layout's pointer and every present slice field is three
    pointers wide; the other fields have size 0. *)
Theorem versionLayoutMap_sizes (key : string) (layout : ModuleDataLayout.t) :
  versionLayoutMap !! key = Some layout →
  sizesFollowPtrSize layout.
Proof.
  intros Hkey. apply versionLayoutMap_entry in Hkey.
  pose proof versionLayoutEntries_sizes as Hall.
  rewrite Forall_forall in Hall. exact (Hall _ Hkey).
Qed.

Lemma versionLayoutMap_sizes_witness :
  versionLayoutMap !! "1.22_64" = Some (getLayout "1.22" true) ∧
  sizesFollowPtrSize (getLayout "1.22" true).
Proof.
  split; [vm_compute; reflexivity |].
  apply (versionLayoutMap_sizes "1.22_64"). vm_compute. reflexivity.
Defined.

(** * The field decoder: absent fields and bounds *)

Lemma readField_absent (data : byteslice) (offset : FieldOffset)
    (littleEndian : bool) :
  Size offset = 0 → readField data offset littleEndian = Ok 0.
Proof. intros Hsize. unfold readField. by rewrite Hsize. Qed.

Lemma readSlice_absent (data : byteslice) (offset : FieldOffset) (ptrSize : Z)
    (littleEndian : bool) :
  Size offset = 0 →
  readSlice data offset ptrSize littleEndian = Ok GoSlice64.zero.
Proof. intros Hsize. unfold readSlice. by rewrite Hsize. Qed.

(** C6: for every buffer, the empty one included, and every field offset of
    size 0, [readField] returns 0 and [readSlice] returns the all-zero
    descriptor, without error, whatever the contents of the buffer, the byte
    order and the pointer width. *)
Theorem read_absent (data : byteslice) (offset : FieldOffset) (ptrSize : Z)
    (littleEndian : bool) :
  Size offset = 0 →
  readField data offset littleEndian = Ok 0 ∧
  readSlice data offset ptrSize littleEndian = Ok GoSlice64.zero.
Proof.
  intros Hsize. split.
  - by apply readField_absent.
  - by apply readSlice_absent.
Qed.

Lemma read_absent_witness :
  Size (MkFieldOffset 0x118 0) = 0 ∧
  readField (make 0) (MkFieldOffset 0x118 0) false = Ok 0 ∧
  readSlice (make 0) (MkFieldOffset 0x118 0) 8 false = Ok GoSlice64.zero.
Proof.
  split; [reflexivity |].
  apply (read_absent (make 0) (MkFieldOffset 0x118 0) 8 false). reflexivity.
Defined.

(** When the sum of offset and size does not wrap around, a field that ends
    beyond the buffer is refused with the bounds error, by both readers and
    for every size but 0. *)
Lemma read_out_of_bounds_no_wrap (data : byteslice) (offset : FieldOffset)
    (ptrSize : Z) (littleEndian : bool) :
  Size offset ≠ 0 →
  0 ≤ Offset offset + Size offset < 2 ^ 64 →
  len data ≤ MaxInt →
  Offset offset + Size offset > len data →
  readField data offset littleEndian
    = Err (FieldExceeds (Offset offset) (Size offset) (len data)) ∧
  readSlice data offset ptrSize littleEndian
    = Err (SliceExceeds (Offset offset) (Size offset) (len data)).
Proof.
  intros Hsize Hsum Hlen Hout.
  assert (Hnonneg : 0 ≤ len data) by (unfold len; lia).
  unfold MaxInt in Hlen.
  unfold readField, readSlice, wrap64.
  apply Z.eqb_neq in Hsize. rewrite Hsize.
  rewrite (Z.mod_small (Offset offset + Size offset)) by lia.
  rewrite (Z.mod_small (len data)) by lia.
  assert (Hgt : (Offset offset + Size offset >? len data) = true)
    by (apply Z.gtb_lt; lia).
  by rewrite Hgt.
Qed.

(** When the sum wraps around, the check is done on the wrapped sum: if that
    lies within the buffer, both readers go on to the slice expression, whose
    upper bound is then below its lower bound, and panic. *)
Lemma read_wrapped_sum_panics (data : byteslice) (offset : FieldOffset)
    (ptrSize : Z) (littleEndian : bool) :
  0 < Size offset < 2 ^ 64 →
  0 ≤ Offset offset < 2 ^ 64 →
  2 ^ 64 ≤ Offset offset + Size offset →
  Offset offset + Size offset - 2 ^ 64 ≤ len data →
  len data ≤ MaxInt →
  readField data offset littleEndian = Panic ∧
  readSlice data offset ptrSize littleEndian = Panic.
Proof.
  intros Hsize Hoff Hwrap Hroom Hlen. unfold MaxInt in Hlen.
  assert (Hnonneg : 0 ≤ len data) by (unfold len; lia).
  assert (Hsum : wrap64 (Offset offset + Size offset)
                 = Offset offset + Size offset - 2 ^ 64).
  { unfold wrap64.
    replace (Offset offset + Size offset)
      with (Offset offset + Size offset - 2 ^ 64 + 1 * 2 ^ 64) at 1 by lia.
    rewrite Z.mod_add by lia. apply Z.mod_small. lia. }
  unfold readField, readSlice. rewrite Hsum.
  unfold wrap64. rewrite (Z.mod_small (len data)) by lia.
  replace (Size offset =? 0) with false by (symmetry; apply Z.eqb_neq; lia).
  replace (Offset offset + Size offset - 2 ^ 64 >? len data) with false
    by (symmetry; rewrite Z.gtb_ltb; apply Z.ltb_ge; lia).
  unfold subslice.
  replace (Offset offset <=? Offset offset + Size offset - 2 ^ 64) with false
    by (symmetry; apply Z.leb_gt; lia).
  by rewrite andb_false_r.
Qed.

(** At the field offset [(2^64 - 4, 4)] and a buffer of 8 bytes the sum of
    offset and size exceeds the length of the buffer, but it wraps around to
    0 in [uint64], the bounds check passes, and the slice expression that
    follows panics: neither reader returns the bounds error. The same
    happens with size 8, in both byte orders and for any pointer size. *)
Lemma read_wrapping_offset_panics (littleEndian : bool) (ptrSize : Z) :
  let data := make 8 in
  let field4 := MkFieldOffset (2 ^ 64 - 4) 4 in
  let field8 := MkFieldOffset (2 ^ 64 - 4) 8 in
  Offset field4 + Size field4 > len data ∧
  Offset field8 + Size field8 > len data ∧
  readField data field4 littleEndian = Panic ∧
  readField data field8 littleEndian = Panic ∧
  readSlice data field4 ptrSize littleEndian = Panic ∧
  readSlice data field8 ptrSize littleEndian = Panic.
Proof.
  repeat split; try reflexivity.
Qed.

(** * The validator *)

(** C7: [ValidateModuleData] returns an error exactly when the text address
    of the record differs from the expected text start or one of the slices
    type-links, interface-table-links, legacy-types, init-tasks has a length
    above its capacity; otherwise it returns no error. *)
Theorem ValidateModuleData_spec (md : ModuleData.t) (firstFuncEntry : Z) :
  (is_Some (ValidateModuleData md firstFuncEntry)
     ↔ invalidRecord md firstFuncEntry) ∧
  (ValidateModuleData md firstFuncEntry = None
     ↔ ¬ invalidRecord md firstFuncEntry).
Proof.
  unfold ValidateModuleData, invalidRecord, lenExceedsCap.
  destruct (Z.eqb_spec (ModuleData.TextVA md) firstFuncEntry) as [Htext|Htext];
    simpl; [| split; split; intros H; eauto; try discriminate; tauto].
  repeat
    (match goal with
     | |- context [ (?a >? ?b) ] =>
         let Hcmp := fresh "Hcmp" in
         destruct (a >? b) eqn:Hcmp;
         [ apply Z.gtb_lt in Hcmp
         | assert (¬ a > b) by (intros Hgt; apply Z.gt_lt, Z.gtb_lt in Hgt;
                                 congruence); clear Hcmp ]
     end);
    (split; split; intros Hres;
      first [ by eauto | discriminate | by inversion Hres
            | lia | exfalso; lia
            | (right; lia) | tauto ]).
Qed.

(** * The parser on an unknown version *)

(** C10: for every buffer, the empty one included, and every version whose
    lookup key is not in the registry, [ParseModuleData] returns without
    error the record in which every scalar field is 0 and every slice field
    is the all-zero descriptor. *)
Theorem ParseModuleData_unknown_version (data : byteslice) (version : string)
    (is64bit littleEndian : bool) :
  versionLayoutMap !! layoutKey version is64bit = None →
  ParseModuleData data version is64bit littleEndian = Ok ModuleData.zero.
Proof.
  intros Hkey. unfold ParseModuleData.
  rewrite (getLayout_unknown _ _ Hkey). simpl.
  destruct (strings.HasPrefix version "1.5"); [reflexivity |].
  destruct (strings.Compare version "1.7" >=? 0); [| reflexivity].
  destruct (strings.Compare version "1.20" >=? 0); [| reflexivity].
  destruct (strings.Compare version "1.22" >=? 0); reflexivity.
Qed.

Lemma ParseModuleData_unknown_version_witness :
  versionLayoutMap !! layoutKey "9.99" true = None ∧
  ParseModuleData (make 0) "9.99" true true = Ok ModuleData.zero.
Proof.
  split; [vm_compute; reflexivity |].
  apply (ParseModuleData_unknown_version (make 0) "9.99" true true).
  vm_compute. reflexivity.
Defined.

(** * The field decoder: round trip *)

Lemma u8_of_Z (z : Z) : u8 (byte.of_Z z) = z mod 2 ^ 8.
Proof. unfold u8. by rewrite byte.unsigned_of_Z. Qed.

Lemma lor_shiftl_add (a b n : Z) :
  0 ≤ n → 0 ≤ a < 2 ^ n → a .| b << n = a + b * 2 ^ n.
Proof.
  intros Hn Ha.
  assert (Hdisj : Z.land a (b << n) = 0).
  { apply Z.bits_inj'. intros i Hi.
    rewrite Z.land_spec, Z.bits_0.
    destruct (Z.lt_ge_cases i n) as [Hlt|Hge].
    - rewrite Z.shiftl_spec_low by lia. apply andb_false_r.
    - rewrite <- (Z.mod_small a (2 ^ n)) by lia.
      by rewrite Z.mod_pow2_bits_high by lia. }
  rewrite <- Z.lxor_lor by exact Hdisj.
  rewrite <- Z.add_nocarry_lxor by exact Hdisj.
  by rewrite Z.shiftl_mul_pow2 by lia.
Qed.

Section Combine.

Variables b0 b1 b2 b3 b4 b5 b6 b7 : Z.
Hypothesis H0 : 0 ≤ b0 < 2 ^ 8.
Hypothesis H1 : 0 ≤ b1 < 2 ^ 8.
Hypothesis H2 : 0 ≤ b2 < 2 ^ 8.
Hypothesis H3 : 0 ≤ b3 < 2 ^ 8.
Hypothesis H4 : 0 ≤ b4 < 2 ^ 8.
Hypothesis H5 : 0 ≤ b5 < 2 ^ 8.
Hypothesis H6 : 0 ≤ b6 < 2 ^ 8.
Hypothesis H7 : 0 ≤ b7 < 2 ^ 8.

Lemma combine4 :
  b0 .| b1 << 8 .| b2 << 16 .| b3 << 24
  = b0 + b1 * 2 ^ 8 + b2 * 2 ^ 16 + b3 * 2 ^ 24.
Proof using H0 H1 H2.
  rewrite (lor_shiftl_add b0 b1 8) by lia.
  rewrite (lor_shiftl_add _ b2 16) by lia.
  rewrite (lor_shiftl_add _ b3 24) by lia.
  reflexivity.
Qed.

Lemma combine8 :
  b0 .| b1 << 8 .| b2 << 16 .| b3 << 24 .|
  b4 << 32 .| b5 << 40 .| b6 << 48 .| b7 << 56
  = b0 + b1 * 2 ^ 8 + b2 * 2 ^ 16 + b3 * 2 ^ 24 + b4 * 2 ^ 32
    + b5 * 2 ^ 40 + b6 * 2 ^ 48 + b7 * 2 ^ 56.
Proof using H0 H1 H2 H3 H4 H5 H6.
  rewrite (lor_shiftl_add b0 b1 8) by lia.
  rewrite (lor_shiftl_add _ b2 16) by lia.
  rewrite (lor_shiftl_add _ b3 24) by lia.
  rewrite (lor_shiftl_add _ b4 32) by lia.
  rewrite (lor_shiftl_add _ b5 40) by lia.
  rewrite (lor_shiftl_add _ b6 48) by lia.
  rewrite (lor_shiftl_add _ b7 56) by lia.
  reflexivity.
Qed.

End Combine.

Lemma bytes_of_uint32 (v : Z) :
  0 ≤ v < 2 ^ 32 →
  v mod 2 ^ 8 + (v >> 8) mod 2 ^ 8 * 2 ^ 8 + (v >> 16) mod 2 ^ 8 * 2 ^ 16
  + (v >> 24) mod 2 ^ 8 * 2 ^ 24 = v.
Proof.
  intros Hv. rewrite !Z.shiftr_div_pow2 by lia.
  change (2 ^ 8) with 256. change (2 ^ 16) with 65536.
  change (2 ^ 24) with 16777216. change (2 ^ 32) with 4294967296 in Hv.
  Z.div_mod_to_equations. lia.
Qed.

Lemma bytes_of_uint64 (v : Z) :
  0 ≤ v < 2 ^ 64 →
  v mod 2 ^ 8 + (v >> 8) mod 2 ^ 8 * 2 ^ 8 + (v >> 16) mod 2 ^ 8 * 2 ^ 16
  + (v >> 24) mod 2 ^ 8 * 2 ^ 24 + (v >> 32) mod 2 ^ 8 * 2 ^ 32
  + (v >> 40) mod 2 ^ 8 * 2 ^ 40 + (v >> 48) mod 2 ^ 8 * 2 ^ 48
  + (v >> 56) mod 2 ^ 8 * 2 ^ 56 = v.
Proof.
  intros Hv. rewrite !Z.shiftr_div_pow2 by lia.
  change (2 ^ 8) with 256. change (2 ^ 16) with 65536.
  change (2 ^ 24) with 16777216. change (2 ^ 32) with 4294967296.
  change (2 ^ 40) with 1099511627776. change (2 ^ 48) with 281474976710656.
  change (2 ^ 56) with 72057594037927936.
  change (2 ^ 64) with 18446744073709551616 in Hv.
  Z.div_mod_to_equations. lia.
Qed.

(** A buffer with room for [k] bytes at offset [n], cut around them. *)
Lemma cut_window (l : list byte) (n k : nat) :
  (n + k ≤ length l)%nat →
  ∃ pre mid post,
    l = pre ++ mid ++ post ∧ length pre = n ∧ length mid = k.
Proof.
  intros Hroom.
  exists (take n l), (take k (drop n l)), (drop k (drop n l)).
  rewrite !take_drop, !length_take, length_drop.
  split; [reflexivity | lia].
Qed.

Lemma insert_past (pre rest : list byte) (i : nat) (x : byte) (j : Z) :
  Z.to_nat j = (length pre + i)%nat →
  <[Z.to_nat j := x]> (pre ++ rest) = pre ++ <[i := x]> rest.
Proof. intros ->. apply insert_app_r. Qed.

Ltac cut_list l off k :=
  let pre := fresh "pre" in
  let mid := fresh "mid" in
  let post := fresh "post" in
  let Hpre := fresh "Hpre" in
  let Hmid := fresh "Hmid" in
  destruct (cut_window l (Z.to_nat off) k)
    as (pre & mid & post & -> & Hpre & Hmid);
  [ lia | ];
  repeat (destruct mid as [|? mid]; [discriminate Hmid |]);
  destruct mid; [clear Hmid | discriminate Hmid].

Ltac insert_at pre i :=
  rewrite (insert_past pre _ i) by lia; cbn [list_insert insert app].

(** The four bytes read back at an offset where four bytes were stored. *)
Lemma stored4_window (l bey : list byte) (off : Z) (x0 x1 x2 x3 : byte) :
  0 ≤ off → off + 4 ≤ Z.of_nat (length l) →
  take 4 (drop (Z.to_nat off)
    (<[Z.to_nat (off + 3) := x3]> (<[Z.to_nat (off + 2) := x2]>
      (<[Z.to_nat (off + 1) := x1]> (<[Z.to_nat (off + 0) := x0]> l)))
     ++ bey))
  = [x0; x1; x2; x3].
Proof.
  intros Hoff Hroom. cut_list l off 4%nat.
  insert_at pre 0%nat. insert_at pre 1%nat.
  insert_at pre 2%nat. insert_at pre 3%nat.
  rewrite <- (assoc_L (++)), drop_app_length' by lia. reflexivity.
Qed.

(** The eight bytes read back at an offset where eight bytes were stored. *)
Lemma stored8_window (l bey : list byte) (off : Z)
    (x0 x1 x2 x3 x4 x5 x6 x7 : byte) :
  0 ≤ off → off + 8 ≤ Z.of_nat (length l) →
  take 8 (drop (Z.to_nat off)
    (<[Z.to_nat (off + 7) := x7]> (<[Z.to_nat (off + 6) := x6]>
      (<[Z.to_nat (off + 5) := x5]> (<[Z.to_nat (off + 4) := x4]>
        (<[Z.to_nat (off + 3) := x3]> (<[Z.to_nat (off + 2) := x2]>
          (<[Z.to_nat (off + 1) := x1]> (<[Z.to_nat (off + 0) := x0]> l)))))))
     ++ bey))
  = [x0; x1; x2; x3; x4; x5; x6; x7].
Proof.
  intros Hoff Hroom. cut_list l off 8%nat.
  insert_at pre 0%nat. insert_at pre 1%nat.
  insert_at pre 2%nat. insert_at pre 3%nat.
  insert_at pre 4%nat. insert_at pre 5%nat.
  insert_at pre 6%nat. insert_at pre 7%nat.
  rewrite <- (assoc_L (++)), drop_app_length' by lia. reflexivity.
Qed.

(** What [subslice] yields where the bounds check of the readers passed. *)
Lemma subslice_in_bounds (data : byteslice) (off size : Z) :
  0 ≤ off → 0 ≤ size → off + size ≤ len data →
  subslice data off (off + size)
  = Ok {| elems := take (Z.to_nat size)
                     (drop (Z.to_nat off) (elems data ++ beyond data));
          beyond := drop (Z.to_nat (off + size))
                      (elems data ++ beyond data) |}.
Proof.
  intros Hoff Hsize Hroom. unfold subslice.
  assert (Hcap : len data ≤ cap data) by (unfold len, cap; lia).
  replace ((0 <=? off) && (off <=? off + size) && (off + size <=? cap data))
    with true by (symmetry; rewrite !andb_true_iff, !Z.leb_le; lia).
  by replace (off + size - off) with size by lia.
Qed.

(** [readField] on a field that lies within the buffer: the bounds check
    passes and the decoder is applied to the bytes of the field. *)
Lemma readField_in_bounds (data : byteslice) (off size : Z)
    (littleEndian : bool) :
  0 ≤ off → 0 < size → off + size ≤ len data → len data ≤ MaxInt →
  readField data (MkFieldOffset off size) littleEndian
  = let fieldData :=
      {| elems := take (Z.to_nat size)
                    (drop (Z.to_nat off) (elems data ++ beyond data));
         beyond := drop (Z.to_nat (off + size))
                     (elems data ++ beyond data) |} in
    if size =? 8 then
      if littleEndian then binary.LittleEndian.Uint64 fieldData
      else binary.BigEndian.Uint64 fieldData
    else if size =? 4 then
      if littleEndian then binary.LittleEndian.Uint32 fieldData
      else binary.BigEndian.Uint32 fieldData
    else Err (UnsupportedFieldSize size).
Proof.
  intros Hoff Hsize Hroom Hlen. unfold MaxInt in Hlen.
  unfold readField, wrap64; cbn [Size Offset].
  replace (size =? 0) with false by (symmetry; apply Z.eqb_neq; lia).
  rewrite (Z.mod_small (off + size)) by lia.
  rewrite (Z.mod_small (len data)) by lia.
  replace (off + size >? len data) with false
    by (symmetry; rewrite Z.gtb_ltb; apply Z.ltb_ge; lia).
  by rewrite subslice_in_bounds by lia.
Qed.

Lemma len_store (buf : byteslice) (off i : Z) (x : byte) :
  len (store buf off i x) = len buf.
Proof. unfold len, store; cbn [elems]. by rewrite length_insert. Qed.

Lemma mod_byte (z : Z) : 0 ≤ z mod 2 ^ 8 < 2 ^ 8.
Proof. apply Z.mod_pos_bound. lia. Qed.

Section RoundTrip.

Variable data : byteslice.
Variable off : Z.
Variable v : Z.
Hypothesis Hoff : 0 ≤ off.
Hypothesis Hlen : len data ≤ MaxInt.

(** The bounds check of a [Put] function passes. *)
Local Ltac put_in_bounds :=
  match goal with
  | |- context [ (0 <=? off) && (off <=? len data) && (?k <=? len data - off) ] =>
      replace ((0 <=? off) && (off <=? len data) && (k <=? len data - off))
        with true by (symmetry; rewrite !andb_true_iff, !Z.leb_le; lia)
  end.

(** The reader finds the bytes the writer stored. *)
Local Ltac read_stored window :=
  eexists; split; [reflexivity |];
  rewrite readField_in_bounds by (rewrite ?len_store; lia);
  cbv zeta;
  unfold binary.LittleEndian.Uint32, binary.LittleEndian.Uint64,
    binary.BigEndian.Uint32, binary.BigEndian.Uint64, store;
  cbn [elems beyond Z.eqb Pos.eqb Z.to_nat Pos.to_nat Pos.iter_op Init.Nat.add];
  rewrite window by (unfold len in *; lia);
  f_equal; rewrite !u8_of_Z.

Lemma LittleEndian_roundtrip32 :
  off + 4 ≤ len data → 0 ≤ v < 2 ^ 32 →
  ∃ data', binary.LittleEndian.PutUint32 data off v = Ok data' ∧
    readField data' (MkFieldOffset off 4) true = Ok v.
Proof using Hoff Hlen.
  intros Hroom Hv. unfold binary.LittleEndian.PutUint32. put_in_bounds.
  read_stored stored4_window.
  rewrite combine4 by apply mod_byte. by apply bytes_of_uint32.
Qed.

Lemma BigEndian_roundtrip32 :
  off + 4 ≤ len data → 0 ≤ v < 2 ^ 32 →
  ∃ data', binary.BigEndian.PutUint32 data off v = Ok data' ∧
    readField data' (MkFieldOffset off 4) false = Ok v.
Proof using Hoff Hlen.
  intros Hroom Hv. unfold binary.BigEndian.PutUint32. put_in_bounds.
  read_stored stored4_window.
  rewrite combine4 by apply mod_byte. by apply bytes_of_uint32.
Qed.

Lemma LittleEndian_roundtrip64 :
  off + 8 ≤ len data → 0 ≤ v < 2 ^ 64 →
  ∃ data', binary.LittleEndian.PutUint64 data off v = Ok data' ∧
    readField data' (MkFieldOffset off 8) true = Ok v.
Proof using Hoff Hlen.
  intros Hroom Hv. unfold binary.LittleEndian.PutUint64. put_in_bounds.
  read_stored stored8_window.
  rewrite combine8 by apply mod_byte. by apply bytes_of_uint64.
Qed.

Lemma BigEndian_roundtrip64 :
  off + 8 ≤ len data → 0 ≤ v < 2 ^ 64 →
  ∃ data', binary.BigEndian.PutUint64 data off v = Ok data' ∧
    readField data' (MkFieldOffset off 8) false = Ok v.
Proof using Hoff Hlen.
  intros Hroom Hv. unfold binary.BigEndian.PutUint64. put_in_bounds.
  read_stored stored8_window.
  rewrite combine8 by apply mod_byte. by apply bytes_of_uint64.
Qed.

End RoundTrip.

(** C8: for every value [v] representable in the width of the field, every
    offset, size 4 or 8 and either byte order: after [v] is written into a
    buffer that has room for the field, at the field's offset, in its width
    and in that byte order, [readField] with the same offset, size and byte
    order returns [v]. *)
Theorem readField_roundtrip (data : byteslice) (offset : FieldOffset)
    (littleEndian : bool) (v : Z) :
  Size offset = 4 ∨ Size offset = 8 →
  0 ≤ v < 2 ^ (8 * Size offset) →
  0 ≤ Offset offset →
  Offset offset + Size offset ≤ len data →
  len data ≤ MaxInt →
  ∃ data', putField data offset littleEndian v = Ok data' ∧
    readField data' offset littleEndian = Ok v.
Proof.
  destruct offset as [off size]; cbn [Size Offset].
  intros [-> | ->] Hv Hoff Hroom Hlen; unfold putField; cbn [Size Offset];
    destruct littleEndian; cbn [Z.eqb Pos.eqb].
  - by apply LittleEndian_roundtrip32.
  - by apply BigEndian_roundtrip32.
  - by apply LittleEndian_roundtrip64.
  - by apply BigEndian_roundtrip64.
Qed.

Lemma readField_roundtrip_witness :
  (Size (MkFieldOffset 4 8) = 4 ∨ Size (MkFieldOffset 4 8) = 8) ∧
  0 ≤ 0xfedcba9876543210 < 2 ^ (8 * Size (MkFieldOffset 4 8)) ∧
  0 ≤ Offset (MkFieldOffset 4 8) ∧
  Offset (MkFieldOffset 4 8) + Size (MkFieldOffset 4 8) ≤ len (make 16) ∧
  len (make 16) ≤ MaxInt ∧
  ∃ data', putField (make 16) (MkFieldOffset 4 8) false 0xfedcba9876543210
           = Ok data' ∧
    readField data' (MkFieldOffset 4 8) false = Ok 0xfedcba9876543210.
Proof.
  assert (Hsize : Size (MkFieldOffset 4 8) = 4 ∨ Size (MkFieldOffset 4 8) = 8)
    by (right; reflexivity).
  assert (Hv : 0 ≤ 0xfedcba9876543210 < 2 ^ (8 * Size (MkFieldOffset 4 8)))
    by (vm_compute; split; [discriminate | reflexivity]).
  assert (Hoff : 0 ≤ Offset (MkFieldOffset 4 8)) by (vm_compute; discriminate).
  assert (Hroom : Offset (MkFieldOffset 4 8) + Size (MkFieldOffset 4 8)
                  ≤ len (make 16)) by (vm_compute; discriminate).
  assert (Hlen : len (make 16) ≤ MaxInt) by (vm_compute; discriminate).
  repeat (split; [assumption |]).
  exact (readField_roundtrip (make 16) (MkFieldOffset 4 8) false
           0xfedcba9876543210 Hsize Hv Hoff Hroom Hlen).
Defined.

(** * The parser's version cascade *)

Lemma bind_Ok {A B} (m : result A) (f : A → result B) (b : B) :
  m ≫= f = Ok b → ∃ a, m = Ok a ∧ f a = Ok b.
Proof. destruct m; cbn; [eauto | discriminate | discriminate]. Qed.

(** The tier thresholds are compared as strings: the versions 1.18, 1.20 and
    1.22 of the registry sort below "1.7". *)
Lemma registry_versions_below_1_7 :
  Forall (λ version, strings.Compare version "1.7" = -1)
    ["1.18"; "1.20"; "1.22"].
Proof. repeat constructor. Qed.

(** A version that does not start with "1.5" and sorts below "1.7" gets the
    common fields only: whatever the buffer holds, the fields of the later
    tiers stay at their zero value. *)
Lemma ParseModuleData_below_1_7 (data : byteslice) (version : string)
    (is64bit littleEndian : bool) (md : ModuleData.t) :
  strings.HasPrefix version "1.5" = false →
  strings.Compare version "1.7" < 0 →
  ParseModuleData data version is64bit littleEndian = Ok md →
  ModuleData.Rodata md = 0 ∧ ModuleData.Gofunc md = 0 ∧
  ModuleData.Covctrs md = 0 ∧ ModuleData.Ecovctrs md = 0 ∧
  ModuleData.InitTasks md = GoSlice64.zero ∧
  ModuleData.LegacyTypes md = GoSlice64.zero.
Proof.
  intros Hprefix Hbelow Hparse. unfold ParseModuleData in Hparse.
  rewrite Hprefix in Hparse.
  replace (strings.Compare version "1.7" >=? 0) with false in Hparse
    by (symmetry; rewrite Z.geb_leb; apply Z.leb_gt; lia).
  repeat (apply bind_Ok in Hparse as (? & _ & Hparse); cbv beta zeta in Hparse).
  injection Hparse as <-. repeat split.
Qed.

(** C1, at the scenario's input: on the 1024-byte buffer with the text start
    [0x1000] and the init-tasks slice [(0xd000, 5, 10)] written at the
    offsets of the layout of version 1.22, 64-bit, the parser returns a
    record with text address [0x1000], but its init-tasks field is the zero
    descriptor, although [readSlice] finds [(0xd000, 5, 10)] at the layout's
    init-tasks offset. Validation of the record succeeds against [0x1000]
    and fails against [0x5000]. *)
Theorem ParseModuleData_1_22_scenario :
  ∃ buf md,
    scenarioBuffer = Ok buf ∧ len buf = 1024 ∧
    readSlice buf (InitTasks (getLayout "1.22" true)) 8 true
      = Ok (GoSlice64.mk 0xd000 5 10) ∧
    ParseModuleData buf "1.22" true true = Ok md ∧
    ModuleData.TextVA md = 0x1000 ∧
    ModuleData.InitTasks md = GoSlice64.zero ∧
    ValidateModuleData md 0x1000 = None ∧
    ValidateModuleData md 0x5000 = Some (TextVAMismatch 0x1000 0x5000).
Proof.
  eexists. eexists.
  split; [vm_compute; reflexivity |].
  split; [vm_compute; reflexivity |].
  split; [vm_compute; reflexivity |].
  split; [vm_compute; reflexivity |].
  repeat split.
Qed.

(** On the buffer of the repository's own test for version 1.22, 64-bit, the
    parser returns a record without the init-tasks slice the test expects. *)
Lemma TestModuleDataParsing_1_22_64 :
  ∃ buf md,
    createTestModuleData "1.22" true = Ok buf ∧
    ParseModuleData buf "1.22" true true = Ok md ∧
    ModuleData.InitTasks md = GoSlice64.zero ∧
    ModuleData.InitTasks expected_1_22_64 = GoSlice64.mk 0xd000 5 10 ∧
    md ≠ expected_1_22_64.
Proof.
  eexists. eexists.
  split; [vm_compute; reflexivity |].
  split; [vm_compute; reflexivity |].
  repeat split. discriminate.
Qed.

(** C2, at an input where the claim fails: [strings.Compare] puts "1.20"
    below "1.7", so for version "1.20" the parser leaves the read-only-data,
    go-func-blob and coverage-counter fields at 0, on a buffer that holds
    [0x9000], [0xa000], [0xb000] and [0xc000] at the offsets the layout
    gives these fields. *)
Theorem ParseModuleData_1_20_cascade :
  strings.Compare "1.20" "1.7" = -1 ∧
  (strings.Compare "1.20" "1.7" >=? 0) = false ∧
  ∃ buf md,
    createTestModuleData "1.20" true = Ok buf ∧
    readField buf (Rodata (getLayout "1.20" true)) true = Ok 0x9000 ∧
    readField buf (Gofunc (getLayout "1.20" true)) true = Ok 0xa000 ∧
    readField buf (Covctrs (getLayout "1.20" true)) true = Ok 0xb000 ∧
    readField buf (Ecovctrs (getLayout "1.20" true)) true = Ok 0xc000 ∧
    ParseModuleData buf "1.20" true true = Ok md ∧
    ModuleData.Rodata md = 0 ∧ ModuleData.Gofunc md = 0 ∧
    ModuleData.Covctrs md = 0 ∧ ModuleData.Ecovctrs md = 0.
Proof.
  split; [reflexivity |]. split; [reflexivity |].
  eexists. eexists.
  split; [vm_compute; reflexivity |].
  split; [vm_compute; reflexivity |].
  split; [vm_compute; reflexivity |].
  split; [vm_compute; reflexivity |].
  split; [vm_compute; reflexivity |].
  split; [vm_compute; reflexivity |].
  repeat split.
Qed.

(** * The field decoder: what an in-bounds read returns *)

Lemma u8_range (b : byte) : 0 ≤ u8 b < 2 ^ 8.
Proof. apply byte.unsigned_range. Qed.

Lemma LittleEndian_Uint32_range (b : byteslice) (v : Z) :
  binary.LittleEndian.Uint32 b = Ok v → 0 ≤ v < 2 ^ 32.
Proof.
  unfold binary.LittleEndian.Uint32.
  destruct (elems b) as [|x0 [|x1 [|x2 [|x3 ?]]]]; try discriminate.
  intros [= <-]. rewrite combine4 by apply u8_range.
  pose proof (u8_range x0). pose proof (u8_range x1).
  pose proof (u8_range x2). pose proof (u8_range x3). lia.
Qed.

Lemma BigEndian_Uint32_range (b : byteslice) (v : Z) :
  binary.BigEndian.Uint32 b = Ok v → 0 ≤ v < 2 ^ 32.
Proof.
  unfold binary.BigEndian.Uint32.
  destruct (elems b) as [|x0 [|x1 [|x2 [|x3 ?]]]]; try discriminate.
  intros [= <-]. rewrite combine4 by apply u8_range.
  pose proof (u8_range x0). pose proof (u8_range x1).
  pose proof (u8_range x2). pose proof (u8_range x3). lia.
Qed.

Lemma LittleEndian_Uint64_range (b : byteslice) (v : Z) :
  binary.LittleEndian.Uint64 b = Ok v → 0 ≤ v < 2 ^ 64.
Proof.
  unfold binary.LittleEndian.Uint64.
  destruct (elems b) as [|x0 [|x1 [|x2 [|x3 [|x4 [|x5 [|x6 [|x7 ?]]]]]]]];
    try discriminate.
  intros [= <-]. rewrite combine8 by apply u8_range.
  pose proof (u8_range x0). pose proof (u8_range x1).
  pose proof (u8_range x2). pose proof (u8_range x3).
  pose proof (u8_range x4). pose proof (u8_range x5).
  pose proof (u8_range x6). pose proof (u8_range x7). lia.
Qed.

Lemma BigEndian_Uint64_range (b : byteslice) (v : Z) :
  binary.BigEndian.Uint64 b = Ok v → 0 ≤ v < 2 ^ 64.
Proof.
  unfold binary.BigEndian.Uint64.
  destruct (elems b) as [|x0 [|x1 [|x2 [|x3 [|x4 [|x5 [|x6 [|x7 ?]]]]]]]];
    try discriminate.
  intros [= <-]. rewrite combine8 by apply u8_range.
  pose proof (u8_range x0). pose proof (u8_range x1).
  pose proof (u8_range x2). pose proof (u8_range x3).
  pose proof (u8_range x4). pose proof (u8_range x5).
  pose proof (u8_range x6). pose proof (u8_range x7). lia.
Qed.

(** X1: a value [readField] returns fits the width of the field: below
    [2^32] for a 4-byte field, below [2^64] for an 8-byte field (and 0 for
    an absent one). *)
Theorem readField_range (data : byteslice) (offset : FieldOffset)
    (littleEndian : bool) (v : Z) :
  readField data offset littleEndian = Ok v →
  0 ≤ v < 2 ^ (8 * Size offset).
Proof.
  unfold readField.
  destruct (Z.eqb_spec (Size offset) 0) as [-> | _];
    [intros [= <-]; cbn; lia |].
  destruct (_ >? _); [discriminate |].
  intros Hread. apply bind_Ok in Hread as (fieldData & _ & Hread).
  destruct (Z.eqb_spec (Size offset) 8) as [-> | _].
  { destruct littleEndian;
      [apply LittleEndian_Uint64_range in Hread
      | apply BigEndian_Uint64_range in Hread]; exact Hread. }
  destruct (Z.eqb_spec (Size offset) 4) as [-> | _]; [| discriminate].
  destruct littleEndian;
    [apply LittleEndian_Uint32_range in Hread
    | apply BigEndian_Uint32_range in Hread]; exact Hread.
Qed.

Lemma readField_range_witness :
  readField (make 8) (MkFieldOffset 4 4) true = Ok 0 ∧
  0 ≤ 0 < 2 ^ (8 * Size (MkFieldOffset 4 4)).
Proof.
  split; [reflexivity |].
  apply (readField_range (make 8) (MkFieldOffset 4 4) true 0). reflexivity.
Defined.

(** X2: a field that lies within the buffer but whose size is neither 4 nor
    8 (nor 0) is refused with the unsupported-size error. *)
Theorem readField_unsupported_size (data : byteslice) (offset : FieldOffset)
    (littleEndian : bool) :
  0 ≤ Offset offset → 0 < Size offset →
  Size offset ≠ 4 → Size offset ≠ 8 →
  Offset offset + Size offset ≤ len data → len data ≤ MaxInt →
  readField data offset littleEndian
  = Err (UnsupportedFieldSize (Size offset)).
Proof.
  destruct offset as [off size]; cbn [Offset Size].
  intros Hoff Hsize H4 H8 Hroom Hlen.
  rewrite readField_in_bounds by lia. cbv zeta.
  apply Z.eqb_neq in H4, H8. by rewrite H4, H8.
Qed.

Lemma readField_unsupported_size_witness :
  0 ≤ Offset (MkFieldOffset 0x60 12) ∧ 0 < Size (MkFieldOffset 0x60 12) ∧
  Size (MkFieldOffset 0x60 12) ≠ 4 ∧ Size (MkFieldOffset 0x60 12) ≠ 8 ∧
  Offset (MkFieldOffset 0x60 12) + Size (MkFieldOffset 0x60 12)
    ≤ len (make 1024) ∧
  len (make 1024) ≤ MaxInt ∧
  readField (make 1024) (MkFieldOffset 0x60 12) true
  = Err (UnsupportedFieldSize 12).
Proof.
  assert (H1 : 0 ≤ Offset (MkFieldOffset 0x60 12)) by (cbn; lia).
  assert (H2 : 0 < Size (MkFieldOffset 0x60 12)) by (cbn; lia).
  assert (H3 : Size (MkFieldOffset 0x60 12) ≠ 4) by (cbn; lia).
  assert (H4 : Size (MkFieldOffset 0x60 12) ≠ 8) by (cbn; lia).
  assert (H5 : Offset (MkFieldOffset 0x60 12) + Size (MkFieldOffset 0x60 12)
               ≤ len (make 1024)) by (vm_compute; discriminate).
  assert (H6 : len (make 1024) ≤ MaxInt) by (vm_compute; discriminate).
  repeat (split; [assumption |]).
  exact (readField_unsupported_size (make 1024) (MkFieldOffset 0x60 12) true
           H1 H2 H3 H4 H5 H6).
Defined.

(** * The slice reader: the three words it decodes *)

(** A slice expression depends on the backing array only. *)
Lemma subslice_ext (s1 s2 : byteslice) (lo hi : Z) :
  elems s1 ++ beyond s1 = elems s2 ++ beyond s2 →
  subslice s1 lo hi = subslice s2 lo hi.
Proof.
  intros Harr. unfold subslice, cap.
  rewrite <- !length_app, Harr. reflexivity.
Qed.

Lemma readSliceWords_ext (s1 s2 : byteslice) (ptrSize : Z)
    (littleEndian : bool) :
  elems s1 ++ beyond s1 = elems s2 ++ beyond s2 →
  readSliceWords s1 ptrSize littleEndian
  = readSliceWords s2 ptrSize littleEndian.
Proof.
  intros Harr. unfold readSliceWords.
  by rewrite !(subslice_ext s1 s2) by exact Harr.
Qed.

Lemma readSlice_in_bounds (data : byteslice) (off size ptrSize : Z)
    (littleEndian : bool) :
  0 ≤ off → 0 < size → off + size ≤ len data → len data ≤ MaxInt →
  readSlice data (MkFieldOffset off size) ptrSize littleEndian
  = readSliceWords (arrayFrom data off) ptrSize littleEndian.
Proof.
  intros Hoff Hsize Hroom Hlen. unfold MaxInt in Hlen.
  unfold readSlice, wrap64; cbn [Size Offset].
  replace (size =? 0) with false by (symmetry; apply Z.eqb_neq; lia).
  rewrite (Z.mod_small (off + size)) by lia.
  rewrite (Z.mod_small (len data)) by lia.
  replace (off + size >? len data) with false
    by (symmetry; rewrite Z.gtb_ltb; apply Z.ltb_ge; lia).
  rewrite subslice_in_bounds by lia. cbn [mbind result_bind].
  match goal with
  | |- context [ subslice ?sliceData 0 8 ] =>
      apply (readSliceWords_ext sliceData (arrayFrom data off))
  end.
  cbn [elems beyond arrayFrom]. rewrite app_nil_r.
  replace (Z.to_nat (off + size)) with (Z.to_nat off + Z.to_nat size)%nat
    by lia.
  by rewrite <- drop_drop, take_drop.
Qed.

(** X3: beyond its bounds check, [readSlice] does not use the size of the
    field: two fields at the same offset that both pass the check give the
    same result, whatever their sizes. The three words are read from the
    offset on, also past the end of the field. *)
Theorem readSlice_ignores_size (data : byteslice) (off size1 size2 : Z)
    (ptrSize : Z) (littleEndian : bool) :
  0 ≤ off → len data ≤ MaxInt →
  0 < size1 → off + size1 ≤ len data →
  0 < size2 → off + size2 ≤ len data →
  readSlice data (MkFieldOffset off size1) ptrSize littleEndian
  = readSlice data (MkFieldOffset off size2) ptrSize littleEndian.
Proof.
  intros Hoff Hlen Hsize1 Hroom1 Hsize2 Hroom2.
  by rewrite !readSlice_in_bounds by lia.
Qed.

Lemma readSlice_ignores_size_witness :
  0 ≤ 0x118 ∧ len (make 1024) ≤ MaxInt ∧
  0 < 1 ∧ 0x118 + 1 ≤ len (make 1024) ∧
  0 < 24 ∧ 0x118 + 24 ≤ len (make 1024) ∧
  readSlice (make 1024) (MkFieldOffset 0x118 1) 8 true
  = readSlice (make 1024) (MkFieldOffset 0x118 24) 8 true.
Proof.
  assert (H1 : 0 ≤ 0x118) by lia.
  assert (H2 : len (make 1024) ≤ MaxInt) by (vm_compute; discriminate).
  assert (H3 : 0 < 1) by lia.
  assert (H4 : 0x118 + 1 ≤ len (make 1024)) by (vm_compute; discriminate).
  assert (H5 : 0 < 24) by lia.
  assert (H6 : 0x118 + 24 ≤ len (make 1024)) by (vm_compute; discriminate).
  repeat (split; [assumption |]).
  exact (readSlice_ignores_size (make 1024) 0x118 1 24 8 true
           H1 H2 H3 H4 H5 H6).
Defined.

Lemma subslice_ok (s : byteslice) (lo hi : Z) :
  0 ≤ lo ≤ hi → hi ≤ cap s →
  subslice s lo hi
  = Ok {| elems := take (Z.to_nat (hi - lo))
                     (drop (Z.to_nat lo) (elems s ++ beyond s));
          beyond := drop (Z.to_nat hi) (elems s ++ beyond s) |}.
Proof.
  intros Hlo Hhi. unfold subslice.
  by replace ((0 <=? lo) && (lo <=? hi) && (hi <=? cap s))
    with true by (symmetry; rewrite !andb_true_iff, !Z.leb_le; lia).
Qed.

Lemma subslice_beyond_cap (s : byteslice) (lo hi : Z) :
  cap s < hi → subslice s lo hi = Panic.
Proof.
  intros Hhi. unfold subslice.
  replace (hi <=? cap s) with false by (symmetry; apply Z.leb_gt; lia).
  by rewrite andb_false_r.
Qed.

Lemma LittleEndian_Uint32_total (b : byteslice) :
  (4 ≤ length (elems b))%nat → ∃ v, binary.LittleEndian.Uint32 b = Ok v.
Proof.
  unfold binary.LittleEndian.Uint32.
  destruct (elems b) as [|x0 [|x1 [|x2 [|x3 ?]]]]; cbn; intros; try lia; eauto.
Qed.

Lemma BigEndian_Uint32_total (b : byteslice) :
  (4 ≤ length (elems b))%nat → ∃ v, binary.BigEndian.Uint32 b = Ok v.
Proof.
  unfold binary.BigEndian.Uint32.
  destruct (elems b) as [|x0 [|x1 [|x2 [|x3 ?]]]]; cbn; intros; try lia; eauto.
Qed.

Lemma LittleEndian_Uint64_total (b : byteslice) :
  (8 ≤ length (elems b))%nat → ∃ v, binary.LittleEndian.Uint64 b = Ok v.
Proof.
  unfold binary.LittleEndian.Uint64.
  destruct (elems b) as [|x0 [|x1 [|x2 [|x3 [|x4 [|x5 [|x6 [|x7 ?]]]]]]]];
    cbn; intros; try lia; eauto.
Qed.

Lemma BigEndian_Uint64_total (b : byteslice) :
  (8 ≤ length (elems b))%nat → ∃ v, binary.BigEndian.Uint64 b = Ok v.
Proof.
  unfold binary.BigEndian.Uint64.
  destruct (elems b) as [|x0 [|x1 [|x2 [|x3 [|x4 [|x5 [|x6 [|x7 ?]]]]]]]];
    cbn; intros; try lia; eauto.
Qed.

(** One word of [readSliceWords]: the slice expression succeeds when its
    upper bound is within the capacity, and the decoder [dec] then has the
    bytes it needs. *)
Ltac decode_word dec total range :=
  match goal with
  | |- context [ subslice ?s ?lo ?hi ] =>
      rewrite (subslice_ok s lo hi) by lia;
      cbn [mbind result_bind];
      match goal with
      | |- context [ dec ?w ] =>
          let v := fresh "v" in
          let Hv := fresh "Hv" in
          destruct (total w) as [v Hv];
          [ cbn [elems]; rewrite length_take, length_drop, length_app;
            unfold cap in *; lia
          | rewrite Hv; pose proof (range _ _ Hv) ]
      end
  end.

(** The slice expression panics when its upper bound is past the capacity. *)
Ltac word_panics :=
  match goal with
  | |- context [ subslice ?s ?lo ?hi ] =>
      rewrite (subslice_beyond_cap s lo hi) by lia; reflexivity
  end.

Lemma readSliceWords_ok (s : byteslice) (ptrSize : Z) (littleEndian : bool) :
  3 * wordSize ptrSize ≤ cap s →
  ∃ d, readSliceWords s ptrSize littleEndian = Ok d ∧
       wordsBelow (2 ^ (8 * wordSize ptrSize)) d.
Proof.
  unfold readSliceWords, wordSize.
  destruct (ptrSize =? 8), littleEndian; intros Hcap.
  - do 3 decode_word binary.LittleEndian.Uint64
           LittleEndian_Uint64_total LittleEndian_Uint64_range.
    eexists. split; [reflexivity |]. unfold wordsBelow, pvoid64. cbn. lia.
  - do 3 decode_word binary.BigEndian.Uint64
           BigEndian_Uint64_total BigEndian_Uint64_range.
    eexists. split; [reflexivity |]. unfold wordsBelow, pvoid64. cbn. lia.
  - do 3 decode_word binary.LittleEndian.Uint32
           LittleEndian_Uint32_total LittleEndian_Uint32_range.
    eexists. split; [reflexivity |]. unfold wordsBelow, pvoid64. cbn. lia.
  - do 3 decode_word binary.BigEndian.Uint32
           BigEndian_Uint32_total BigEndian_Uint32_range.
    eexists. split; [reflexivity |]. unfold wordsBelow, pvoid64. cbn. lia.
Qed.

Lemma readSliceWords_short (s : byteslice) (ptrSize : Z)
    (littleEndian : bool) :
  cap s < 3 * wordSize ptrSize →
  readSliceWords s ptrSize littleEndian = Panic.
Proof.
  unfold readSliceWords, wordSize.
  destruct (ptrSize =? 8), littleEndian; intros Hcap.
  - destruct (Z_lt_le_dec (cap s) 8); [word_panics |].
    decode_word binary.LittleEndian.Uint64
      LittleEndian_Uint64_total LittleEndian_Uint64_range.
    destruct (Z_lt_le_dec (cap s) 16); [word_panics |].
    decode_word binary.LittleEndian.Uint64
      LittleEndian_Uint64_total LittleEndian_Uint64_range.
    word_panics.
  - destruct (Z_lt_le_dec (cap s) 8); [word_panics |].
    decode_word binary.BigEndian.Uint64
      BigEndian_Uint64_total BigEndian_Uint64_range.
    destruct (Z_lt_le_dec (cap s) 16); [word_panics |].
    decode_word binary.BigEndian.Uint64
      BigEndian_Uint64_total BigEndian_Uint64_range.
    word_panics.
  - destruct (Z_lt_le_dec (cap s) 4); [word_panics |].
    decode_word binary.LittleEndian.Uint32
      LittleEndian_Uint32_total LittleEndian_Uint32_range.
    destruct (Z_lt_le_dec (cap s) 8); [word_panics |].
    decode_word binary.LittleEndian.Uint32
      LittleEndian_Uint32_total LittleEndian_Uint32_range.
    word_panics.
  - destruct (Z_lt_le_dec (cap s) 4); [word_panics |].
    decode_word binary.BigEndian.Uint32
      BigEndian_Uint32_total BigEndian_Uint32_range.
    destruct (Z_lt_le_dec (cap s) 8); [word_panics |].
    decode_word binary.BigEndian.Uint32
      BigEndian_Uint32_total BigEndian_Uint32_range.
    word_panics.
Qed.

Lemma cap_arrayFrom (data : byteslice) (off : Z) :
  0 ≤ off ≤ cap data → cap (arrayFrom data off) = cap data - off.
Proof.
  intros Hoff. unfold cap, arrayFrom in *; cbn [elems beyond].
  rewrite length_drop, length_app. cbn [length]. lia.
Qed.

(** X4: a slice field that passes the bounds check is decoded without error
    when the backing array holds three words from the field's offset on
    (words of 8 bytes for pointer size 8, of 4 bytes otherwise), and each
    word of the result fits the word width. *)
Theorem readSlice_three_words (data : byteslice) (offset : FieldOffset)
    (ptrSize : Z) (littleEndian : bool) :
  0 ≤ Offset offset → 0 < Size offset →
  Offset offset + Size offset ≤ len data → len data ≤ MaxInt →
  Offset offset + 3 * wordSize ptrSize ≤ cap data →
  ∃ d, readSlice data offset ptrSize littleEndian = Ok d ∧
       wordsBelow (2 ^ (8 * wordSize ptrSize)) d.
Proof.
  destruct offset as [off size]; cbn [Offset Size].
  intros Hoff Hsize Hroom Hlen Hcap.
  assert (len data ≤ cap data) by (unfold len, cap; lia).
  rewrite readSlice_in_bounds by lia.
  apply readSliceWords_ok. rewrite cap_arrayFrom by lia. lia.
Qed.

Lemma readSlice_three_words_witness :
  0 ≤ Offset (MkFieldOffset 0x118 24) ∧ 0 < Size (MkFieldOffset 0x118 24) ∧
  Offset (MkFieldOffset 0x118 24) + Size (MkFieldOffset 0x118 24)
    ≤ len (make 1024) ∧
  len (make 1024) ≤ MaxInt ∧
  Offset (MkFieldOffset 0x118 24) + 3 * wordSize 8 ≤ cap (make 1024) ∧
  ∃ d, readSlice (make 1024) (MkFieldOffset 0x118 24) 8 false = Ok d ∧
       wordsBelow (2 ^ (8 * wordSize 8)) d.
Proof.
  assert (H1 : 0 ≤ Offset (MkFieldOffset 0x118 24)) by (cbn; lia).
  assert (H2 : 0 < Size (MkFieldOffset 0x118 24)) by (cbn; lia).
  assert (H3 : Offset (MkFieldOffset 0x118 24) + Size (MkFieldOffset 0x118 24)
               ≤ len (make 1024)) by (vm_compute; discriminate).
  assert (H4 : len (make 1024) ≤ MaxInt) by (vm_compute; discriminate).
  assert (H5 : Offset (MkFieldOffset 0x118 24) + 3 * wordSize 8
               ≤ cap (make 1024)) by (vm_compute; discriminate).
  repeat (split; [assumption |]).
  exact (readSlice_three_words (make 1024) (MkFieldOffset 0x118 24) 8 false
           H1 H2 H3 H4 H5).
Defined.

(** X5: the bounds check of [readSlice] covers the size of the field, not
    the three words it reads: a field that passes the check, at an offset
    from which the backing array holds fewer than three words, makes
    [readSlice] panic in a slice expression instead of returning an error. *)
Theorem readSlice_short_array_panics (data : byteslice) (offset : FieldOffset)
    (ptrSize : Z) (littleEndian : bool) :
  0 ≤ Offset offset → 0 < Size offset →
  Offset offset + Size offset ≤ len data → len data ≤ MaxInt →
  cap data < Offset offset + 3 * wordSize ptrSize →
  readSlice data offset ptrSize littleEndian = Panic.
Proof.
  destruct offset as [off size]; cbn [Offset Size].
  intros Hoff Hsize Hroom Hlen Hcap.
  assert (len data ≤ cap data) by (unfold len, cap; lia).
  rewrite readSlice_in_bounds by lia.
  apply readSliceWords_short. rewrite cap_arrayFrom by lia. lia.
Qed.

Lemma readSlice_short_array_panics_witness :
  0 ≤ Offset (MkFieldOffset 8 8) ∧ 0 < Size (MkFieldOffset 8 8) ∧
  Offset (MkFieldOffset 8 8) + Size (MkFieldOffset 8 8) ≤ len (make 16) ∧
  len (make 16) ≤ MaxInt ∧
  cap (make 16) < Offset (MkFieldOffset 8 8) + 3 * wordSize 8 ∧
  readSlice (make 16) (MkFieldOffset 8 8) 8 true = Panic.
Proof.
  assert (H1 : 0 ≤ Offset (MkFieldOffset 8 8)) by (cbn; lia).
  assert (H2 : 0 < Size (MkFieldOffset 8 8)) by (cbn; lia).
  assert (H3 : Offset (MkFieldOffset 8 8) + Size (MkFieldOffset 8 8)
               ≤ len (make 16)) by (vm_compute; discriminate).
  assert (H4 : len (make 16) ≤ MaxInt) by (vm_compute; discriminate).
  assert (H5 : cap (make 16) < Offset (MkFieldOffset 8 8) + 3 * wordSize 8)
    by (vm_compute; reflexivity).
  repeat (split; [assumption |]).
  exact (readSlice_short_array_panics (make 16) (MkFieldOffset 8 8) 8 true
           H1 H2 H3 H4 H5).
Defined.

(** * The layouts [getLayout] returns *)

Lemma versionLayoutEntries_ok :
  Forall (λ kl, layoutOk kl.2) versionLayoutEntries.
Proof. apply (bool_decide_unpack _). vm_compute. reflexivity. Qed.

Lemma defaultLayout_ok : layoutOk defaultLayout.
Proof. apply (bool_decide_unpack _). vm_compute. reflexivity. Qed.

Lemma getLayout_ok (version : string) (is64bit : bool) :
  layoutOk (getLayout version is64bit).
Proof.
  unfold getLayout.
  destruct (versionLayoutMap !! layoutKey version is64bit) as [layout|] eqn:Hkey;
    [| apply defaultLayout_ok].
  apply versionLayoutMap_entry in Hkey.
  pose proof versionLayoutEntries_ok as Hall.
  rewrite Forall_forall in Hall. exact (Hall _ Hkey).
Qed.

(** A field of a well-formed layout is either read or refused with the
    bounds error, according to the length of the buffer. *)
Lemma readField_scalar (data : byteslice) (f : FieldOffset) (ptrSize : Z)
    (littleEndian : bool) :
  ptrSize = 4 ∨ ptrSize = 8 → scalarFieldOk ptrSize f → len data ≤ MaxInt →
  (Offset f + Size f ≤ len data → ∃ v, readField data f littleEndian = Ok v) ∧
  valueOrBoundsError (readField data f littleEndian).
Proof.
  intros Hptr ([Habsent | Hsize] & Hoff & Hext) Hlen.
  { rewrite readField_absent by exact Habsent.
    split; [| left]; eauto. }
  unfold registryExtent in Hext.
  assert (Hin : Offset f + Size f ≤ len data →
                ∃ v, readField data f littleEndian = Ok v).
  { intros Hroom. destruct f as [off size]; cbn [Offset Size] in *.
    rewrite readField_in_bounds by lia. cbv zeta.
    assert (Hwin : ∀ k : nat, Z.of_nat k = size →
              (k ≤ length (take (Z.to_nat size)
                      (drop (Z.to_nat off) (elems data ++ beyond data))))%nat).
    { intros k Hk. rewrite length_take, length_drop, length_app.
      unfold len in Hroom. lia. }
    destruct Hptr as [-> | ->]; subst size; cbn [Z.eqb Pos.eqb];
      destruct littleEndian.
    - apply LittleEndian_Uint32_total, (Hwin 4%nat). reflexivity.
    - apply BigEndian_Uint32_total, (Hwin 4%nat). reflexivity.
    - apply LittleEndian_Uint64_total, (Hwin 8%nat). reflexivity.
    - apply BigEndian_Uint64_total, (Hwin 8%nat). reflexivity. }
  split; [exact Hin |].
  destruct (Z_le_gt_dec (Offset f + Size f) (len data)) as [Hroom | Hout].
  - left. by apply Hin.
  - right. eexists. split.
    + apply (read_out_of_bounds_no_wrap data f 0 littleEndian); lia.
    + exact I.
Qed.

Lemma readSlice_field (data : byteslice) (f : FieldOffset) (ptrSize : Z)
    (littleEndian : bool) :
  ptrSize = 4 ∨ ptrSize = 8 → sliceFieldOk ptrSize f → len data ≤ MaxInt →
  (Offset f + Size f ≤ len data →
   ∃ d, readSlice data f ptrSize littleEndian = Ok d) ∧
  valueOrBoundsError (readSlice data f ptrSize littleEndian).
Proof.
  intros Hptr ([Habsent | Hsize] & Hoff & Hext) Hlen.
  { rewrite readSlice_absent by exact Habsent.
    split; [| left]; eauto. }
  unfold registryExtent in Hext.
  assert (Hword : wordSize ptrSize = ptrSize)
    by (destruct Hptr as [-> | ->]; reflexivity).
  assert (Hin : Offset f + Size f ≤ len data →
                ∃ d, readSlice data f ptrSize littleEndian = Ok d).
  { intros Hroom.
    destruct (readSliceWords_ok (arrayFrom data (Offset f)) ptrSize
                littleEndian) as (d & Hd & _).
    - assert (len data ≤ cap data) by (unfold len, cap; lia).
      rewrite cap_arrayFrom by lia. lia.
    - exists d. destruct f as [off size]; cbn [Offset Size] in *.
      rewrite readSlice_in_bounds by lia. exact Hd. }
  split; [exact Hin |].
  destruct (Z_le_gt_dec (Offset f + Size f) (len data)) as [Hroom | Hout].
  - left. by apply Hin.
  - right. eexists. split.
    + apply (read_out_of_bounds_no_wrap data f ptrSize littleEndian); lia.
    + exact I.
Qed.

(** * The parser: outcomes *)

Lemma stopsAtFirstFailure_step {A B} (names : list string)
    (readOf : string → option (result unit)) (done : list string)
    (field : string) (todo : list string) (r : result A)
    (f : A → result B) :
  Forall (λ f, readOf f = Some (Ok tt)) done →
  names = done ++ field :: todo →
  readOf field = Some (outcome r) →
  valueOrBoundsError r →
  (Forall (λ f, readOf f = Some (Ok tt)) (done ++ [field]) →
   ∀ a, stopsAtFirstFailure names readOf (f a)) →
  stopsAtFirstFailure names readOf (orFailedToRead field r ≫= f).
Proof.
  intros Hdone Hnames Hread [[a ->] | (e & -> & He)] Hrest; cbn in *.
  - apply Hrest. apply Forall_app. split; [exact Hdone |].
    by apply Forall_singleton.
  - right. exists done, field, todo, e. by repeat split.
Qed.

Lemma bind_read_ok {A B} (field : string) (r : result A) (f : A → result B) :
  (∃ a, r = Ok a) → (∀ a, ∃ b, f a = Ok b) →
  ∃ b, orFailedToRead field r ≫= f = Ok b.
Proof. intros [a ->] Hf. cbn. apply Hf. Qed.

(** The facts [layoutOk] gives about each field the parser reads. *)
Ltac layout_facts version is64bit :=
  let Hptr := fresh "Hptr" in
  let Hsc := fresh "Hsc" in
  let Hsl := fresh "Hsl" in
  destruct (getLayout_ok version is64bit) as (Hptr & Hsc & Hsl);
  unfold ModuleDataLayout.scalars, ModuleDataLayout.slices in Hsc, Hsl;
  repeat match goal with
    | H : Forall _ (_ :: _) |- _ =>
        let Hf := fresh "Hfield" in apply Forall_cons in H as [Hf H]
    end.

(** One step through the body of [ParseModuleData]: a branch of the version
    cascade, or a read followed by the rest, closed by [read] for the read
    and by [last] at a return. *)
Ltac parser_steps bind_lemma read last :=
  repeat first
    [ apply bind_lemma; [ read | intros ?; cbv beta zeta ]
    | match goal with
      | |- context [ if strings.HasPrefix ?v ?p then _ else _ ] =>
          destruct (strings.HasPrefix v p)
      | |- context [ if strings.Compare ?v ?t >=? 0 then _ else _ ] =>
          destruct (strings.Compare v t >=? 0)
      end
    | last ].

(** X6: on a buffer of any length, for every version string, bitness and
    byte order, [ParseModuleData] does not panic and stops at the first
    failure: either it returns a record and every read of the version's
    cascade succeeded, or it returns the error that names the first field,
    in reading order, whose read failed, and that wraps the bounds error of
    that read. The unsupported-size error cannot come out of the parser. *)
Theorem ParseModuleData_outcomes (data : byteslice) (version : string)
    (is64bit littleEndian : bool) :
  len data ≤ MaxInt →
  stopsAtFirstFailure (fieldsRead version)
    (fieldRead data (getLayout version is64bit) littleEndian)
    (ParseModuleData data version is64bit littleEndian).
Proof.
  intros Hlen. unfold ParseModuleData, fieldsRead.
  layout_facts version is64bit. cbv zeta.
  set (readOf := fieldRead data (getLayout version is64bit) littleEndian).
  assert (Hdone : Forall (λ f, readOf f = Some (Ok tt)) []) by constructor.
  destruct (strings.HasPrefix version "1.5"),
    (strings.Compare version "1.7" >=? 0),
    (strings.Compare version "1.20" >=? 0),
    (strings.Compare version "1.22" >=? 0);
    repeat
      (eapply stopsAtFirstFailure_step;
       [ exact Hdone
       | reflexivity
       | reflexivity
       | first [ eapply readField_scalar | eapply readSlice_field ];
         eassumption
       | clear Hdone; intros Hdone ?; cbn [app] in Hdone; cbv beta zeta ]);
    left; eexists; (split; [reflexivity | exact Hdone]).
Qed.

Lemma ParseModuleData_outcomes_witness :
  len (make 100) ≤ MaxInt ∧
  stopsAtFirstFailure (fieldsRead "1.22")
    (fieldRead (make 100) (getLayout "1.22" true) false)
    (ParseModuleData (make 100) "1.22" true false).
Proof.
  assert (Hlen : len (make 100) ≤ MaxInt) by (vm_compute; discriminate).
  split; [exact Hlen |].
  exact (ParseModuleData_outcomes (make 100) "1.22" true false Hlen).
Defined.

(** X7: a buffer of at least [0x130] = 304 bytes, the end of the last field
    of the registry, is parsed without error for every version string,
    bitness and byte order. *)
Theorem ParseModuleData_enough_bytes (data : byteslice) (version : string)
    (is64bit littleEndian : bool) :
  registryExtent ≤ len data → len data ≤ MaxInt →
  ∃ md, ParseModuleData data version is64bit littleEndian = Ok md.
Proof.
  intros Hroom Hlen. unfold ParseModuleData. layout_facts version is64bit.
  cbv zeta.
  parser_steps (@bind_read_ok)
    ltac:(first [ eapply readField_scalar | eapply readSlice_field ];
          first [ eassumption
                | match goal with
                  | H : scalarFieldOk _ ?f |- Offset ?f + _ ≤ _ =>
                      destruct H as (_ & _ & ?); lia
                  | H : sliceFieldOk _ ?f |- Offset ?f + _ ≤ _ =>
                      destruct H as (_ & _ & ?); lia
                  end ])
    ltac:(eauto).
Qed.

Lemma ParseModuleData_enough_bytes_witness :
  registryExtent ≤ len (make 304) ∧ len (make 304) ≤ MaxInt ∧
  ∃ md, ParseModuleData (make 304) "1.22" true true = Ok md.
Proof.
  assert (Hroom : registryExtent ≤ len (make 304))
    by (vm_compute; discriminate).
  assert (Hlen : len (make 304) ≤ MaxInt) by (vm_compute; discriminate).
  repeat (split; [assumption |]).
  exact (ParseModuleData_enough_bytes (make 304) "1.22" true true Hroom Hlen).
Defined.

(** * The parser: the record it returns *)

Lemma orFailedToRead_Ok {A} (field : string) (r : result A) (a : A) :
  orFailedToRead field r = Ok a → r = Ok a.
Proof. destruct r; cbn; congruence. Qed.

(** Inversion of a successful run of the parser: one hypothesis per read. *)
Ltac invert_parse H :=
  repeat first
    [ let Hread := fresh "Hread" in
      apply bind_Ok in H as (? & Hread & H);
      apply orFailedToRead_Ok in Hread; cbv beta zeta in H
    | match type of H with
      | context [ if strings.HasPrefix ?v ?p then _ else _ ] =>
          let Hp := fresh "Hprefix" in
          destruct (strings.HasPrefix v p) eqn:Hp
      | context [ if strings.Compare ?v ?t >=? 0 then _ else _ ] =>
          destruct (strings.Compare v t >=? 0)
      end ];
  injection H as <-.

Lemma parsed_common_fields (data : byteslice) (version : string)
    (is64bit littleEndian : bool) (md : ModuleData.t) :
  ParseModuleData data version is64bit littleEndian = Ok md →
  let layout := getLayout version is64bit in
  readField data (Text layout) littleEndian = Ok (ModuleData.TextVA md) ∧
  readField data (Types layout) littleEndian = Ok (ModuleData.Types md) ∧
  readField data (ETypes layout) littleEndian = Ok (ModuleData.ETypes md) ∧
  readSlice data (Typelinks layout) (PtrSize layout) littleEndian
    = Ok (ModuleData.Typelinks md) ∧
  readSlice data (ITablinks layout) (PtrSize layout) littleEndian
    = Ok (ModuleData.ITablinks md) ∧
  (if strings.HasPrefix version "1.5"
   then readSlice data (LegacyTypes layout) (PtrSize layout) littleEndian
        = Ok (ModuleData.LegacyTypes md)
   else ModuleData.LegacyTypes md = GoSlice64.zero).
Proof.
  intros Hparse layout. unfold ParseModuleData in Hparse.
  fold layout in Hparse. cbv zeta in Hparse.
  invert_parse Hparse; cbn; repeat split; assumption.
Qed.



(** A layout without the fields of the later tiers gives a record without
    them, whichever branch of the cascade the version string selects. *)
Lemma ParseModuleData_later_absent (data : byteslice) (version : string)
    (is64bit littleEndian : bool) (md : ModuleData.t) :
  laterFieldsAbsent (getLayout version is64bit) →
  ParseModuleData data version is64bit littleEndian = Ok md →
  ModuleData.Rodata md = 0 ∧ ModuleData.Gofunc md = 0 ∧
  ModuleData.Covctrs md = 0 ∧ ModuleData.Ecovctrs md = 0 ∧
  ModuleData.InitTasks md = GoSlice64.zero.
Proof.
  intros (Hro & Hgo & Hcov & Hecov & Hinit) Hparse.
  unfold ParseModuleData in Hparse. cbv zeta in Hparse.
  rewrite ?(readField_absent _ _ _ Hro), ?(readField_absent _ _ _ Hgo),
    ?(readField_absent _ _ _ Hcov), ?(readField_absent _ _ _ Hecov),
    ?(readSlice_absent _ _ _ _ Hinit) in Hparse.
  invert_parse Hparse; cbn; repeat split; congruence.
Qed.

(** An entry of the registry either has none of the later fields, or is
    looked up with a version string that sorts below "1.7". *)
Ltac invert_key64 H v :=
  repeat (destruct v as [|? v]; cbn in H;
          [ try discriminate H
          | first [ discriminate H | injection H as -> H ] ]).

Lemma registry_later_fields (version : string) (is64bit : bool)
    (layout : ModuleDataLayout.t) :
  versionLayoutMap !! layoutKey version is64bit = Some layout →
  laterFieldsAbsent layout ∨
  (strings.HasPrefix version "1.5" = false ∧
   strings.Compare version "1.7" < 0).
Proof.
  intros Hkey. apply versionLayoutMap_entry in Hkey.
  unfold versionLayoutEntries in Hkey.
  repeat (apply elem_of_cons in Hkey as [Hkey | Hkey];
          [injection Hkey as Hk -> |]);
    [.. | by apply elem_of_nil in Hkey];
    first [ left; by repeat split
          | right; unfold layoutKey in Hk; destruct is64bit;
            [ invert_key64 Hk version | subst version ];
            by vm_compute ].
Qed.

Lemma parsed_later_fields_zero (data : byteslice)
    (version : string) (is64bit littleEndian : bool) (md : ModuleData.t) :
  ParseModuleData data version is64bit littleEndian = Ok md →
  ModuleData.Rodata md = 0 ∧ ModuleData.Gofunc md = 0 ∧
  ModuleData.Covctrs md = 0 ∧ ModuleData.Ecovctrs md = 0 ∧
  ModuleData.InitTasks md = GoSlice64.zero.
Proof.
  intros Hparse.
  destruct (versionLayoutMap !! layoutKey version is64bit) as [layout|]
    eqn:Hkey.
  - destruct (registry_later_fields _ _ _ Hkey) as [Habsent | [Hpre Hlt]].
    + apply (ParseModuleData_later_absent _ _ _ _ _
               ltac:(unfold getLayout; rewrite Hkey; exact Habsent) Hparse).
    + destruct (ParseModuleData_below_1_7 _ _ _ _ _ Hpre Hlt Hparse)
        as (? & ? & ? & ? & ? & _).
      by repeat split.
  - apply (ParseModuleData_later_absent _ _ _ _ _
             ltac:(rewrite (getLayout_unknown _ _ Hkey); by repeat split)
             Hparse).
Qed.

(** X9: whatever the buffer, the version string, the bitness and the byte
    order, a record [ParseModuleData] returns has read-only data, go-func
    blob, both coverage counters and init tasks equal to zero: the registry
    entries that have these fields are reached only with version strings
    that the cascade places below "1.7". *)
Theorem ParseModuleData_later_fields_zero (data : byteslice)
    (version : string) (is64bit littleEndian : bool) (md : ModuleData.t) :
  ParseModuleData data version is64bit littleEndian = Ok md →
  ModuleData.Rodata md = 0 ∧ ModuleData.Gofunc md = 0 ∧
  ModuleData.Covctrs md = 0 ∧ ModuleData.Ecovctrs md = 0 ∧
  ModuleData.InitTasks md = GoSlice64.zero.
Proof. apply parsed_later_fields_zero. Qed.

Lemma ParseModuleData_later_fields_zero_witness :
  ∃ md,
    ParseModuleData (MkSlice (replicate 304 Byte.xff) []) "1.22" false true
      = Ok md ∧
    ModuleData.Rodata md = 0 ∧ ModuleData.Gofunc md = 0 ∧
    ModuleData.Covctrs md = 0 ∧ ModuleData.Ecovctrs md = 0 ∧
    ModuleData.InitTasks md = GoSlice64.zero.
Proof.
  eexists.
  refine ((λ Hparse,
            conj Hparse
              (ParseModuleData_later_fields_zero _ _ _ _ _ Hparse)) _).
  vm_compute. reflexivity.
Defined.

(** * The parser on a short buffer *)

Lemma versionLayoutEntries_text :
  Forall (λ kl, Size (Text kl.2) ≠ 0) versionLayoutEntries.
Proof. apply (bool_decide_unpack _). vm_compute. reflexivity. Qed.

(** X10: for a version and bitness of the registry, a buffer that ends
    before the end of the layout's text field is refused at the first read:
    the parser returns the TextVA field error, carrying the offset and size
    of the field and the length of the buffer. *)
Theorem ParseModuleData_short_buffer (data : byteslice) (version : string)
    (is64bit littleEndian : bool) (layout : ModuleDataLayout.t) :
  versionLayoutMap !! layoutKey version is64bit = Some layout →
  len data < Offset (Text layout) + Size (Text layout) →
  ParseModuleData data version is64bit littleEndian
  = Err (FailedToRead "TextVA"
           (FieldExceeds (Offset (Text layout)) (Size (Text layout))
              (len data))).
Proof.
  intros Hkey Hshort. unfold ParseModuleData.
  pose proof (getLayout_ok version is64bit) as (Hptr & Hsc & _).
  unfold getLayout in *. rewrite Hkey in *.
  apply versionLayoutMap_entry in Hkey.
  pose proof versionLayoutEntries_text as Htext.
  rewrite Forall_forall in Htext. specialize (Htext _ Hkey). cbn in Htext.
  apply Forall_cons in Hsc as [(Hsize & Hoff & Hext) _].
  unfold registryExtent in Hext.
  destruct (read_out_of_bounds_no_wrap data (Text layout) 0 littleEndian)
    as [Hread _]; [exact Htext | lia | unfold MaxInt; lia | lia |].
  cbv zeta. rewrite Hread. reflexivity.
Qed.

Lemma ParseModuleData_short_buffer_witness :
  versionLayoutMap !! layoutKey "1.22" true = Some (getLayout "1.22" true) ∧
  len (make 0)
    < Offset (Text (getLayout "1.22" true))
      + Size (Text (getLayout "1.22" true)) ∧
  ParseModuleData (make 0) "1.22" true true
  = Err (FailedToRead "TextVA"
           (FieldExceeds (Offset (Text (getLayout "1.22" true)))
              (Size (Text (getLayout "1.22" true))) (len (make 0)))).
Proof.
  assert (Hkey : versionLayoutMap !! layoutKey "1.22" true
                 = Some (getLayout "1.22" true)) by (vm_compute; reflexivity).
  assert (Hshort : len (make 0)
                   < Offset (Text (getLayout "1.22" true))
                     + Size (Text (getLayout "1.22" true)))
    by (vm_compute; reflexivity).
  repeat (split; [assumption |]).
  exact (ParseModuleData_short_buffer (make 0) "1.22" true true
           (getLayout "1.22" true) Hkey Hshort).
Defined.

(** * Writes and reads through the backing array *)

Lemma window_store (buf : byteslice) (off i : Z) (x : byte) (n : Z)
    (k : nat) :
  0 ≤ off + i < len buf → 0 ≤ n →
  off + i < n ∨ n + Z.of_nat k ≤ off + i →
  window (store buf off i x) n k = window buf n k.
Proof.
  intros Hidx Hn Hout. unfold window, store, len in *; cbn [elems beyond].
  rewrite <- insert_app_l by lia.
  destruct Hout as [Hbefore | Hafter].
  - by rewrite drop_insert_lt by lia.
  - rewrite drop_insert_ge by lia. by rewrite take_insert_ge by lia.
Qed.

Lemma window_stored4 (buf : byteslice) (off : Z) (x0 x1 x2 x3 : byte) :
  0 ≤ off → off + 4 ≤ len buf →
  window (store (store (store (store buf off 0 x0) off 1 x1) off 2 x2)
            off 3 x3) off 4
  = [x0; x1; x2; x3].
Proof.
  intros Hoff Hroom. unfold window, store; cbn [elems beyond].
  apply stored4_window; unfold len in *; lia.
Qed.

Lemma window_stored8 (buf : byteslice) (off : Z)
    (x0 x1 x2 x3 x4 x5 x6 x7 : byte) :
  0 ≤ off → off + 8 ≤ len buf →
  window (store (store (store (store (store (store (store (store buf
            off 0 x0) off 1 x1) off 2 x2) off 3 x3) off 4 x4) off 5 x5)
            off 6 x6) off 7 x7) off 8
  = [x0; x1; x2; x3; x4; x5; x6; x7].
Proof.
  intros Hoff Hroom. unfold window, store; cbn [elems beyond].
  apply stored8_window; unfold len in *; lia.
Qed.

(** What [PutUint32] and [PutUint64] leave behind: the bytes of the value
    at the offset, every other byte as it was, the same length. *)
Lemma LittleEndian_PutUint32_spec (buf : byteslice) (off v : Z) :
  0 ≤ off → off + 4 ≤ len buf →
  ∃ buf', binary.LittleEndian.PutUint32 buf off v = Ok buf' ∧
    len buf' = len buf ∧ window buf' off 4 = bytes32 v ∧
    ∀ n k, 0 ≤ n → n + Z.of_nat k ≤ off ∨ off + 4 ≤ n →
           window buf' n k = window buf n k.
Proof.
  intros Hoff Hroom. unfold binary.LittleEndian.PutUint32.
  replace ((0 <=? off) && (off <=? len buf) && (4 <=? len buf - off))
    with true by (symmetry; rewrite !andb_true_iff, !Z.leb_le; lia).
  eexists. split; [reflexivity |]. split; [by rewrite !len_store |].
  split; [by apply window_stored4 |].
  intros n k Hn Hout.
  by rewrite !window_store by (rewrite ?len_store; lia).
Qed.

Lemma LittleEndian_PutUint64_spec (buf : byteslice) (off v : Z) :
  0 ≤ off → off + 8 ≤ len buf →
  ∃ buf', binary.LittleEndian.PutUint64 buf off v = Ok buf' ∧
    len buf' = len buf ∧ window buf' off 8 = bytes64 v ∧
    ∀ n k, 0 ≤ n → n + Z.of_nat k ≤ off ∨ off + 8 ≤ n →
           window buf' n k = window buf n k.
Proof.
  intros Hoff Hroom. unfold binary.LittleEndian.PutUint64.
  replace ((0 <=? off) && (off <=? len buf) && (8 <=? len buf - off))
    with true by (symmetry; rewrite !andb_true_iff, !Z.leb_le; lia).
  eexists. split; [reflexivity |]. split; [by rewrite !len_store |].
  split; [by apply window_stored8 |].
  intros n k Hn Hout.
  by rewrite !window_store by (rewrite ?len_store; lia).
Qed.

(** The little-endian decoders on the bytes of a value. *)
Lemma LittleEndian_Uint32_bytes32 (v : Z) (b : byteslice) :
  0 ≤ v < 2 ^ 32 → elems b = bytes32 v →
  binary.LittleEndian.Uint32 b = Ok v.
Proof.
  intros Hv Hb. unfold binary.LittleEndian.Uint32. rewrite Hb. cbn.
  f_equal. rewrite !u8_of_Z, combine4 by apply mod_byte.
  by apply bytes_of_uint32.
Qed.

Lemma LittleEndian_Uint64_bytes64 (v : Z) (b : byteslice) :
  0 ≤ v < 2 ^ 64 → elems b = bytes64 v →
  binary.LittleEndian.Uint64 b = Ok v.
Proof.
  intros Hv Hb. unfold binary.LittleEndian.Uint64. rewrite Hb. cbn.
  f_equal. rewrite !u8_of_Z, combine8 by apply mod_byte.
  by apply bytes_of_uint64.
Qed.

(** [readField] looks at the length of the buffer and at the bytes of the
    field only. *)
Lemma readField_same_window (data data' : byteslice) (f : FieldOffset)
    (littleEndian : bool) :
  len data' = len data → len data ≤ MaxInt →
  0 ≤ Offset f → 0 ≤ Size f → Offset f + Size f < 2 ^ 64 →
  window data' (Offset f) (Z.to_nat (Size f))
  = window data (Offset f) (Z.to_nat (Size f)) →
  readField data' f littleEndian = readField data f littleEndian.
Proof.
  intros Hlen' Hlen Hoff Hsize Hsum Hwin.
  destruct (Z.eq_dec (Size f) 0) as [Habsent | Hpresent].
  { by rewrite !readField_absent by exact Habsent. }
  destruct (Z_le_gt_dec (Offset f + Size f) (len data)) as [Hroom | Hout].
  - destruct f as [off size]; cbn [Offset Size] in *.
    rewrite !readField_in_bounds by lia. cbv zeta.
    unfold binary.LittleEndian.Uint32, binary.LittleEndian.Uint64,
      binary.BigEndian.Uint32, binary.BigEndian.Uint64; cbn [elems].
    unfold window in Hwin. by rewrite Hwin.
  - destruct (read_out_of_bounds_no_wrap data f 0 littleEndian)
      as [-> _]; [lia ..|].
    destruct (read_out_of_bounds_no_wrap data' f 0 littleEndian)
      as [-> _]; [lia ..|].
    by rewrite Hlen'.
Qed.

(** X11: [writeAt] touches the bytes it writes only: none for an absent
    field, and otherwise 8 bytes from the field's offset on a 64-bit target
    and 4 bytes on a 32-bit one. After a write to an absent field every
    field is read as before, and after a write to a present field so is
    every field that does not overlap the bytes written. *)
Theorem writeAt_frame (is64bit : bool) (data data' : byteslice)
    (f g : FieldOffset) (value : Z) (littleEndian : bool) :
  writeAt is64bit data f value = Ok data' →
  len data ≤ MaxInt →
  0 ≤ Offset g → 0 ≤ Size g → Offset g + Size g < 2 ^ 64 →
  Size f = 0 ∨
  Offset g + Size g ≤ Offset f ∨ Offset f + writeWidth is64bit ≤ Offset g →
  readField data' g littleEndian = readField data g littleEndian.
Proof.
  unfold writeAt, writeWidth. intros Hwrite Hlen Hoff Hsize Hsum Hdisjoint.
  destruct (Z.eqb_spec (Size f) 0) as [Habsent | Hpresent];
    [by injection Hwrite as <- |].
  destruct Hdisjoint as [Habsent | Hdisjoint]; [contradiction |].
  assert (Hput : 0 ≤ Offset f ∧
                 Offset f + (if is64bit then 8 else 4) ≤ len data).
  { destruct is64bit;
      [unfold binary.LittleEndian.PutUint64 in Hwrite
      |unfold binary.LittleEndian.PutUint32 in Hwrite];
      destruct (_ && _) eqn:Hcond in Hwrite; try discriminate Hwrite;
      rewrite !andb_true_iff, !Z.leb_le in Hcond; lia. }
  assert (Hsame : len data' = len data ∧
            window data' (Offset g) (Z.to_nat (Size g))
            = window data (Offset g) (Z.to_nat (Size g))).
  { destruct is64bit.
    - destruct (LittleEndian_PutUint64_spec data (Offset f) value)
        as (buf & Hbuf & Hlen' & _ & Hframe); [lia .. |].
      rewrite Hbuf in Hwrite. injection Hwrite as <-.
      split; [exact Hlen' |]. apply Hframe; lia.
    - destruct (LittleEndian_PutUint32_spec data (Offset f) (wrap32 value))
        as (buf & Hbuf & Hlen' & _ & Hframe); [lia .. |].
      rewrite Hbuf in Hwrite. injection Hwrite as <-.
      split; [exact Hlen' |]. apply Hframe; lia. }
  destruct Hsame as [Hlen' Hwin].
  by apply readField_same_window.
Qed.

Lemma writeAt_frame_witness :
  ∃ data',
    writeAt true (make 32) (MkFieldOffset 8 8) 0x1000 = Ok data' ∧
    len (make 32) ≤ MaxInt ∧
    0 ≤ Offset (MkFieldOffset 16 8) ∧ 0 ≤ Size (MkFieldOffset 16 8) ∧
    Offset (MkFieldOffset 16 8) + Size (MkFieldOffset 16 8) < 2 ^ 64 ∧
    (Size (MkFieldOffset 8 8) = 0 ∨
     Offset (MkFieldOffset 16 8) + Size (MkFieldOffset 16 8)
       ≤ Offset (MkFieldOffset 8 8) ∨
     Offset (MkFieldOffset 8 8) + writeWidth true
       ≤ Offset (MkFieldOffset 16 8)) ∧
    readField data' (MkFieldOffset 16 8) true
    = readField (make 32) (MkFieldOffset 16 8) true.
Proof.
  eexists.
  assert (H2 : len (make 32) ≤ MaxInt) by (vm_compute; discriminate).
  assert (H3 : 0 ≤ Offset (MkFieldOffset 16 8)) by (cbn; lia).
  assert (H4 : 0 ≤ Size (MkFieldOffset 16 8)) by (cbn; lia).
  assert (H5 : Offset (MkFieldOffset 16 8) + Size (MkFieldOffset 16 8)
               < 2 ^ 64) by (cbn; lia).
  assert (H6 : Size (MkFieldOffset 8 8) = 0 ∨
               Offset (MkFieldOffset 16 8) + Size (MkFieldOffset 16 8)
                 ≤ Offset (MkFieldOffset 8 8) ∨
               Offset (MkFieldOffset 8 8) + writeWidth true
                 ≤ Offset (MkFieldOffset 16 8)) by (right; right; cbn; lia).
  refine ((λ H1, conj H1 (conj H2 (conj H3 (conj H4 (conj H5 (conj H6
            (writeAt_frame true (make 32) _ (MkFieldOffset 8 8)
               (MkFieldOffset 16 8) 0x1000 true H1 H2 H3 H4 H5 H6))))))) _).
  vm_compute. reflexivity.
Defined.

Lemma wrap32_range (v : Z) : 0 ≤ wrap32 v < 2 ^ 32.
Proof. unfold wrap32. apply Z.mod_pos_bound. lia. Qed.

(** X12: a value the test helper [writeAt] stores in a field as wide as the
    target's pointer is read back by [readField] in little-endian order: in
    full on a 64-bit target, truncated to 32 bits otherwise. *)
Theorem writeAt_readField (is64bit : bool) (data : byteslice)
    (f : FieldOffset) (value : Z) :
  Size f = writeWidth is64bit → 0 ≤ Offset f →
  Offset f + Size f ≤ len data → len data ≤ MaxInt →
  0 ≤ value < 2 ^ 64 →
  ∃ data', writeAt is64bit data f value = Ok data' ∧
    readField data' f true = Ok (stored is64bit value).
Proof.
  destruct f as [off size]; cbn [Offset Size].
  unfold writeAt, writeWidth, stored; cbn [Offset Size].
  intros -> Hoff Hroom Hlen Hvalue. destruct is64bit; cbn [Z.eqb Pos.eqb].
  - by apply LittleEndian_roundtrip64.
  - apply LittleEndian_roundtrip32; try done. apply wrap32_range.
Qed.

Lemma writeAt_readField_witness :
  Size (MkFieldOffset 0x40 4) = writeWidth false ∧
  0 ≤ Offset (MkFieldOffset 0x40 4) ∧
  Offset (MkFieldOffset 0x40 4) + Size (MkFieldOffset 0x40 4)
    ≤ len (make 1024) ∧
  len (make 1024) ≤ MaxInt ∧
  0 ≤ 0x123456789 < 2 ^ 64 ∧
  ∃ data', writeAt false (make 1024) (MkFieldOffset 0x40 4) 0x123456789
           = Ok data' ∧
    readField data' (MkFieldOffset 0x40 4) true
    = Ok (stored false 0x123456789).
Proof.
  assert (H1 : Size (MkFieldOffset 0x40 4) = writeWidth false)
    by reflexivity.
  assert (H2 : 0 ≤ Offset (MkFieldOffset 0x40 4)) by (cbn; lia).
  assert (H3 : Offset (MkFieldOffset 0x40 4) + Size (MkFieldOffset 0x40 4)
               ≤ len (make 1024)) by (vm_compute; discriminate).
  assert (H4 : len (make 1024) ≤ MaxInt) by (vm_compute; discriminate).
  assert (H5 : 0 ≤ 0x123456789 < 2 ^ 64) by lia.
  repeat (split; [assumption |]).
  exact (writeAt_readField false (make 1024) (MkFieldOffset 0x40 4)
           0x123456789 H1 H2 H3 H4 H5).
Defined.

(** * The slice round trip *)

Lemma arrayFrom_window (data : byteslice) (off lo hi : Z) :
  0 ≤ off → 0 ≤ lo ≤ hi →
  take (Z.to_nat (hi - lo))
    (drop (Z.to_nat lo)
       (elems (arrayFrom data off) ++ beyond (arrayFrom data off)))
  = window data (off + lo) (Z.to_nat (hi - lo)).
Proof.
  intros Hoff Hlo. unfold arrayFrom, window; cbn [elems beyond].
  rewrite app_nil_r, drop_drop. do 2 f_equal. lia.
Qed.

(** The word [dec] decodes at [lo] is the value whose bytes the window
    [Hwin] holds there. *)
Ltac word_at dec bytes_lemma lo v Hwin :=
  match goal with
  | |- context [ dec (MkSlice (take ?k (drop (Z.to_nat lo) ?arr)) ?bey) ] =>
      rewrite (bytes_lemma v (MkSlice (take k (drop (Z.to_nat lo) arr)) bey))
        by (first [ lia
                  | cbn [elems]; rewrite arrayFrom_window by lia;
                    rewrite ?Z.add_0_r; exact Hwin ])
  end.

Lemma readSliceWords_bytes64 (data : byteslice) (off d l c : Z) :
  0 ≤ off → off + 24 ≤ cap data →
  0 ≤ d < 2 ^ 64 → 0 ≤ l < 2 ^ 64 → 0 ≤ c < 2 ^ 64 →
  window data off 8 = bytes64 d →
  window data (off + 8) 8 = bytes64 l →
  window data (off + 16) 8 = bytes64 c →
  readSliceWords (arrayFrom data off) 8 true = Ok (GoSlice64.mk d l c).
Proof.
  intros Hoff Hcap Hd Hl Hc Hwd Hwl Hwc.
  unfold readSliceWords; cbn [Z.eqb Pos.eqb].
  rewrite (subslice_ok _ 0 8), (subslice_ok _ 8 16), (subslice_ok _ 16 24)
    by (rewrite ?cap_arrayFrom by lia; lia).
  cbn [mbind result_bind].
  word_at binary.LittleEndian.Uint64 LittleEndian_Uint64_bytes64 0 d Hwd.
  word_at binary.LittleEndian.Uint64 LittleEndian_Uint64_bytes64 8 l Hwl.
  word_at binary.LittleEndian.Uint64 LittleEndian_Uint64_bytes64 16 c Hwc.
  reflexivity.
Qed.

Lemma readSliceWords_bytes32 (data : byteslice) (off d l c : Z) :
  0 ≤ off → off + 12 ≤ cap data →
  0 ≤ d < 2 ^ 32 → 0 ≤ l < 2 ^ 32 → 0 ≤ c < 2 ^ 32 →
  window data off 4 = bytes32 d →
  window data (off + 4) 4 = bytes32 l →
  window data (off + 8) 4 = bytes32 c →
  readSliceWords (arrayFrom data off) 4 true = Ok (GoSlice64.mk d l c).
Proof.
  intros Hoff Hcap Hd Hl Hc Hwd Hwl Hwc.
  unfold readSliceWords; cbn [Z.eqb Pos.eqb].
  rewrite (subslice_ok _ 0 4), (subslice_ok _ 4 8), (subslice_ok _ 8 12)
    by (rewrite ?cap_arrayFrom by lia; lia).
  cbn [mbind result_bind].
  word_at binary.LittleEndian.Uint32 LittleEndian_Uint32_bytes32 0 d Hwd.
  word_at binary.LittleEndian.Uint32 LittleEndian_Uint32_bytes32 4 l Hwl.
  word_at binary.LittleEndian.Uint32 LittleEndian_Uint32_bytes32 8 c Hwc.
  reflexivity.
Qed.

(** X13: a descriptor the test helper [writeSlice] stores at a present field
    is read back by [readSlice] with the pointer size of the target, in
    little-endian order: in full on a 64-bit target, each word truncated to
    32 bits otherwise. The three words need room in the buffer, whatever the
    size of the field. *)
Theorem writeSlice_readSlice (is64bit : bool) (data : byteslice)
    (f : FieldOffset) (d l c : Z) :
  0 < Size f → 0 ≤ Offset f →
  Offset f + Size f ≤ len data →
  Offset f + 3 * writeWidth is64bit ≤ len data →
  len data ≤ MaxInt →
  0 ≤ d < 2 ^ 64 → 0 ≤ l < 2 ^ 64 → 0 ≤ c < 2 ^ 64 →
  ∃ data', writeSlice is64bit data f d l c = Ok data' ∧
    readSlice data' f (writeWidth is64bit) true
    = Ok (GoSlice64.mk (stored is64bit d) (stored is64bit l)
            (stored is64bit c)).
Proof.
  destruct f as [off size]; cbn [Offset Size].
  intros Hsize Hoff Hroom Hwords Hlen Hd Hl Hc.
  unfold MaxInt in Hlen.
  unfold writeSlice, writeWidth, stored, wrap64 in *; cbn [Offset Size].
  replace (size =? 0) with false by (symmetry; apply Z.eqb_neq; lia).
  assert (len data ≤ cap data) by (unfold len, cap; lia).
  destruct is64bit.
  - rewrite !Z.mod_small by lia.
    destruct (LittleEndian_PutUint64_spec data off d)
      as (buf1 & -> & Hlen1 & Hw1 & _); [lia .. |].
    destruct (LittleEndian_PutUint64_spec buf1 (off + 8) l)
      as (buf2 & Hput2 & Hlen2 & Hw2 & Hframe2); [lia .. |].
    destruct (LittleEndian_PutUint64_spec buf2 (off + 16) c)
      as (buf3 & Hput3 & Hlen3 & Hw3 & Hframe3); [lia .. |].
    cbn [mbind result_bind]. rewrite Hput2. cbn [mbind result_bind].
    rewrite Hput3. eexists. split; [reflexivity |].
    assert (len buf3 ≤ cap buf3) by (unfold len, cap; lia).
    rewrite readSlice_in_bounds by (unfold MaxInt; lia).
    apply readSliceWords_bytes64; try lia.
    + rewrite Hframe3, Hframe2 by lia. exact Hw1.
    + rewrite Hframe3 by lia. exact Hw2.
    + exact Hw3.
  - rewrite !Z.mod_small by lia.
    destruct (LittleEndian_PutUint32_spec data off (wrap32 d))
      as (buf1 & -> & Hlen1 & Hw1 & _); [lia .. |].
    destruct (LittleEndian_PutUint32_spec buf1 (off + 4) (wrap32 l))
      as (buf2 & Hput2 & Hlen2 & Hw2 & Hframe2); [lia .. |].
    destruct (LittleEndian_PutUint32_spec buf2 (off + 8) (wrap32 c))
      as (buf3 & Hput3 & Hlen3 & Hw3 & Hframe3); [lia .. |].
    cbn [mbind result_bind]. rewrite Hput2. cbn [mbind result_bind].
    rewrite Hput3. eexists. split; [reflexivity |].
    assert (len buf3 ≤ cap buf3) by (unfold len, cap; lia).
    rewrite readSlice_in_bounds by (unfold MaxInt; lia).
    apply readSliceWords_bytes32; try lia; try apply wrap32_range.
    + rewrite Hframe3, Hframe2 by lia. exact Hw1.
    + rewrite Hframe3 by lia. exact Hw2.
    + exact Hw3.
Qed.

Lemma writeSlice_readSlice_witness :
  0 < Size (MkFieldOffset 0x118 24) ∧ 0 ≤ Offset (MkFieldOffset 0x118 24) ∧
  Offset (MkFieldOffset 0x118 24) + Size (MkFieldOffset 0x118 24)
    ≤ len (make 1024) ∧
  Offset (MkFieldOffset 0x118 24) + 3 * writeWidth true ≤ len (make 1024) ∧
  len (make 1024) ≤ MaxInt ∧
  0 ≤ 0xd000 < 2 ^ 64 ∧ 0 ≤ 5 < 2 ^ 64 ∧ 0 ≤ 10 < 2 ^ 64 ∧
  ∃ data', writeSlice true (make 1024) (MkFieldOffset 0x118 24) 0xd000 5 10
           = Ok data' ∧
    readSlice data' (MkFieldOffset 0x118 24) (writeWidth true) true
    = Ok (GoSlice64.mk (stored true 0xd000) (stored true 5)
            (stored true 10)).
Proof.
  assert (H1 : 0 < Size (MkFieldOffset 0x118 24)) by (cbn; lia).
  assert (H2 : 0 ≤ Offset (MkFieldOffset 0x118 24)) by (cbn; lia).
  assert (H3 : Offset (MkFieldOffset 0x118 24) + Size (MkFieldOffset 0x118 24)
               ≤ len (make 1024)) by (vm_compute; discriminate).
  assert (H4 : Offset (MkFieldOffset 0x118 24) + 3 * writeWidth true
               ≤ len (make 1024)) by (vm_compute; discriminate).
  assert (H5 : len (make 1024) ≤ MaxInt) by (vm_compute; discriminate).
  assert (H6 : 0 ≤ 0xd000 < 2 ^ 64) by lia.
  assert (H7 : 0 ≤ 5 < 2 ^ 64) by lia.
  assert (H8 : 0 ≤ 10 < 2 ^ 64) by lia.
  repeat (split; [assumption |]).
  exact (writeSlice_readSlice true (make 1024) (MkFieldOffset 0x118 24)
           0xd000 5 10 H1 H2 H3 H4 H5 H6 H7 H8).
Defined.

(** * The registry key and the pointer size *)

(** X14: a layout found in the registry has pointer size 8 exactly when the
    key that was looked up ends in "_64", which is the case when the 64-bit
    flag is set and also when the flag is not set but the version string
    itself ends in "_64"; otherwise the flag is not set and the pointer size
    is 4. *)
Theorem getLayout_ptrSize (version : string) (is64bit : bool)
    (layout : ModuleDataLayout.t) :
  versionLayoutMap !! layoutKey version is64bit = Some layout →
  (PtrSize layout = 8 ∧ ∃ v, layoutKey version is64bit = v +:+ "_64") ∨
  (PtrSize layout = 4 ∧ is64bit = false).
Proof.
  intros Hkey. apply versionLayoutMap_entry in Hkey.
  unfold versionLayoutEntries in Hkey.
  repeat (apply elem_of_cons in Hkey as [Hkey | Hkey];
          [injection Hkey as Hk -> |]);
    [.. | by apply elem_of_nil in Hkey];
    first
      [ left; split; [reflexivity |]; rewrite Hk;
        first [ by exists "1.5" | by exists "1.7" | by exists "1.18"
              | by exists "1.20" | by exists "1.22" ]
      | right; split; [reflexivity |];
        unfold layoutKey in Hk; destruct is64bit; [| reflexivity];
        invert_key64 Hk version ].
Qed.

Lemma getLayout_ptrSize_witness :
  versionLayoutMap !! layoutKey "1.20_64" false
    = Some (getLayout "1.20" true) ∧
  ((PtrSize (getLayout "1.20" true) = 8 ∧
    ∃ v, layoutKey "1.20_64" false = v +:+ "_64") ∨
   (PtrSize (getLayout "1.20" true) = 4 ∧ false = false)).
Proof.
  assert (Hkey : versionLayoutMap !! layoutKey "1.20_64" false
                 = Some (getLayout "1.20" true)) by (vm_compute; reflexivity).
  split; [exact Hkey |].
  exact (getLayout_ptrSize "1.20_64" false (getLayout "1.20" true) Hkey).
Defined.

(** * Parsing, then validating *)

(** X15: on a record [ParseModuleData] returned, [ValidateModuleData] never
    reports the init-tasks slice: that field of a parsed record is always
    the zero descriptor. *)
Theorem parsed_never_fails_InitTasks (data : byteslice) (version : string)
    (is64bit littleEndian : bool) (md : ModuleData.t)
    (firstFuncEntry length capacity : Z) :
  ParseModuleData data version is64bit littleEndian = Ok md →
  ValidateModuleData md firstFuncEntry
  ≠ Some (InvalidSlice "InitTasks" length capacity).
Proof.
  intros Hparse.
  destruct (parsed_later_fields_zero _ _ _ _ _ Hparse)
    as (_ & _ & _ & _ & Hinit).
  unfold ValidateModuleData. rewrite Hinit. cbn.
  repeat (match goal with
          | |- context [ if ?c then _ else _ ] => destruct c
          end; try discriminate).
Qed.

Lemma parsed_never_fails_InitTasks_witness :
  ∃ md,
    ParseModuleData (MkSlice (replicate 304 Byte.xff) []) "1.22" true true
      = Ok md ∧
    ValidateModuleData md 0xffffffffffffffff
    ≠ Some (InvalidSlice "InitTasks" 11 10).
Proof.
  eexists.
  refine ((λ Hparse,
            conj Hparse
              (parsed_never_fails_InitTasks _ _ _ _ _ 0xffffffffffffffff
                 11 10 Hparse)) _).
  vm_compute. reflexivity.
Defined.

(** * A slice descriptor as three scalar fields *)

(** A decoder looks at the elements of its argument only. *)
Lemma decoders_elems (b b' : byteslice) :
  elems b = elems b' →
  binary.LittleEndian.Uint32 b = binary.LittleEndian.Uint32 b' ∧
  binary.LittleEndian.Uint64 b = binary.LittleEndian.Uint64 b' ∧
  binary.BigEndian.Uint32 b = binary.BigEndian.Uint32 b' ∧
  binary.BigEndian.Uint64 b = binary.BigEndian.Uint64 b'.
Proof.
  intros Helems.
  unfold binary.LittleEndian.Uint32, binary.LittleEndian.Uint64,
    binary.BigEndian.Uint32, binary.BigEndian.Uint64.
  by rewrite Helems.
Qed.

Lemma fieldDecoder_elems (size : Z) (littleEndian : bool)
    (b b' : byteslice) :
  elems b = elems b' →
  fieldDecoder size littleEndian b = fieldDecoder size littleEndian b'.
Proof.
  intros Helems. destruct (decoders_elems b b' Helems) as (? & ? & ? & ?).
  unfold fieldDecoder. by destruct (size =? 8), littleEndian.
Qed.

Lemma readField_fieldDecoder (data : byteslice) (off w : Z)
    (littleEndian : bool) :
  w = 4 ∨ w = 8 → 0 ≤ off → off + w ≤ len data → len data ≤ MaxInt →
  readField data (MkFieldOffset off w) littleEndian
  = fieldDecoder w littleEndian (MkSlice (window data off (Z.to_nat w)) []).
Proof.
  intros Hw Hoff Hroom Hlen.
  rewrite readField_in_bounds by lia. cbv zeta.
  unfold fieldDecoder.
  destruct Hw as [-> | ->]; cbn [Z.eqb Pos.eqb]; destruct littleEndian;
    by apply decoders_elems.
Qed.

(** The word of [readSliceWords] at [lo] is decoded from the window at
    [off']. *)
Ltac word_window data dec lo off' :=
  match goal with
  | |- context [ dec (MkSlice (take ?k (drop (Z.to_nat lo) ?arr)) ?bey) ] =>
      let E := fresh "E" in
      assert (E : dec (MkSlice (take k (drop (Z.to_nat lo) arr)) bey)
                  = dec (MkSlice (window data off' k) []));
      [ apply decoders_elems; cbn [elems];
        rewrite arrayFrom_window by lia; f_equal; lia
      | rewrite E; clear E ]
  end.

Lemma readSliceWords_fieldDecoder (data : byteslice) (off w : Z)
    (littleEndian : bool) :
  w = 4 ∨ w = 8 → 0 ≤ off → off + 3 * w ≤ cap data →
  readSliceWords (arrayFrom data off) w littleEndian
  = (d ← fieldDecoder w littleEndian
           (MkSlice (window data off (Z.to_nat w)) []);
     l ← fieldDecoder w littleEndian
           (MkSlice (window data (off + w) (Z.to_nat w)) []);
     c ← fieldDecoder w littleEndian
           (MkSlice (window data (off + 2 * w) (Z.to_nat w)) []);
     Ok (GoSlice64.mk d l c)).
Proof.
  intros Hw Hoff Hcap. unfold readSliceWords, fieldDecoder.
  destruct Hw as [-> | ->]; cbn [Z.eqb Pos.eqb]; destruct littleEndian.
  - rewrite (subslice_ok _ 0 4), (subslice_ok _ 4 8), (subslice_ok _ 8 12)
      by (rewrite ?cap_arrayFrom by lia; lia).
    cbn [mbind result_bind].
    word_window data binary.LittleEndian.Uint32 0 off.
    word_window data binary.LittleEndian.Uint32 4 (off + 4).
    word_window data binary.LittleEndian.Uint32 8 (off + 2 * 4).
    reflexivity.
  - rewrite (subslice_ok _ 0 4), (subslice_ok _ 4 8), (subslice_ok _ 8 12)
      by (rewrite ?cap_arrayFrom by lia; lia).
    cbn [mbind result_bind].
    word_window data binary.BigEndian.Uint32 0 off.
    word_window data binary.BigEndian.Uint32 4 (off + 4).
    word_window data binary.BigEndian.Uint32 8 (off + 2 * 4).
    reflexivity.
  - rewrite (subslice_ok _ 0 8), (subslice_ok _ 8 16), (subslice_ok _ 16 24)
      by (rewrite ?cap_arrayFrom by lia; lia).
    cbn [mbind result_bind].
    word_window data binary.LittleEndian.Uint64 0 off.
    word_window data binary.LittleEndian.Uint64 8 (off + 8).
    word_window data binary.LittleEndian.Uint64 16 (off + 2 * 8).
    reflexivity.
  - rewrite (subslice_ok _ 0 8), (subslice_ok _ 8 16), (subslice_ok _ 16 24)
      by (rewrite ?cap_arrayFrom by lia; lia).
    cbn [mbind result_bind].
    word_window data binary.BigEndian.Uint64 0 off.
    word_window data binary.BigEndian.Uint64 8 (off + 8).
    word_window data binary.BigEndian.Uint64 16 (off + 2 * 8).
    reflexivity.
Qed.

(** A slice field of three words that [readSlice] decodes is three scalar
    fields in a row for [readField]. *)
Lemma slice_words_as_fields (data : byteslice) (off w : Z)
    (littleEndian : bool) (s : GoSlice64.t) :
  w = 4 ∨ w = 8 → 0 ≤ off → off + 3 * w ≤ len data → len data ≤ MaxInt →
  readSlice data (MkFieldOffset off (3 * w)) w littleEndian = Ok s →
  readField data (MkFieldOffset off w) littleEndian
    = Ok (GoSlice64.Data s) ∧
  readField data (MkFieldOffset (off + w) w) littleEndian
    = Ok (GoSlice64.Len s) ∧
  readField data (MkFieldOffset (off + 2 * w) w) littleEndian
    = Ok (GoSlice64.Capacity s).
Proof.
  intros Hw Hoff Hroom Hlen Hslice.
  assert (len data ≤ cap data) by (unfold len, cap; lia).
  rewrite readSlice_in_bounds in Hslice by lia.
  rewrite readSliceWords_fieldDecoder in Hslice by lia.
  apply bind_Ok in Hslice as (d & Hd & Hslice).
  apply bind_Ok in Hslice as (l & Hl & Hslice).
  apply bind_Ok in Hslice as (c & Hc & Hslice).
  injection Hslice as <-. cbn [GoSlice64.Data GoSlice64.Len GoSlice64.Capacity].
  rewrite !readField_fieldDecoder by lia. by repeat split.
Qed.

(** X16: the three words of a slice descriptor are three scalar fields in a
    row: where [readSlice] decodes a field of three words, [readField]
    returns its data word at the same offset, its length one word further
    and its capacity two words further. *)
Theorem readSlice_words_readField (data : byteslice) (off w : Z)
    (littleEndian : bool) (s : GoSlice64.t) :
  w = 4 ∨ w = 8 → 0 ≤ off → off + 3 * w ≤ len data → len data ≤ MaxInt →
  readSlice data (MkFieldOffset off (3 * w)) w littleEndian = Ok s →
  readField data (MkFieldOffset off w) littleEndian
    = Ok (GoSlice64.Data s) ∧
  readField data (MkFieldOffset (off + w) w) littleEndian
    = Ok (GoSlice64.Len s) ∧
  readField data (MkFieldOffset (off + 2 * w) w) littleEndian
    = Ok (GoSlice64.Capacity s).
Proof. apply slice_words_as_fields. Qed.

Lemma readSlice_words_readField_witness :
  (8 = 4 ∨ 8 = 8) ∧ 0 ≤ 0xd0 ∧ 0xd0 + 3 * 8 ≤ len (make 1024) ∧
  len (make 1024) ≤ MaxInt ∧
  readSlice (make 1024) (MkFieldOffset 0xd0 (3 * 8)) 8 true
    = Ok GoSlice64.zero ∧
  readField (make 1024) (MkFieldOffset 0xd0 8) true
    = Ok (GoSlice64.Data GoSlice64.zero) ∧
  readField (make 1024) (MkFieldOffset (0xd0 + 8) 8) true
    = Ok (GoSlice64.Len GoSlice64.zero) ∧
  readField (make 1024) (MkFieldOffset (0xd0 + 2 * 8) 8) true
    = Ok (GoSlice64.Capacity GoSlice64.zero).
Proof.
  assert (H1 : 8 = 4 ∨ 8 = 8) by (right; reflexivity).
  assert (H2 : 0 ≤ 0xd0) by lia.
  assert (H3 : 0xd0 + 3 * 8 ≤ len (make 1024)) by (vm_compute; discriminate).
  assert (H4 : len (make 1024) ≤ MaxInt) by (vm_compute; discriminate).
  assert (H5 : readSlice (make 1024) (MkFieldOffset 0xd0 (3 * 8)) 8 true
               = Ok GoSlice64.zero) by (vm_compute; reflexivity).
  repeat (split; [assumption |]).
  exact (readSlice_words_readField (make 1024) 0xd0 8 true GoSlice64.zero
           H1 H2 H3 H4 H5).
Defined.

(** * Overlapping fields in the registry *)

Lemma versionLayoutEntries_overlap :
  Forall (λ kl, laterFieldsOnSliceWords kl.2) versionLayoutEntries.
Proof. apply (bool_decide_unpack _). vm_compute. reflexivity. Qed.

Lemma readSlice_Ok_in_bounds (data : byteslice) (f : FieldOffset)
    (ptrSize : Z) (littleEndian : bool) (s : GoSlice64.t) :
  0 ≤ Offset f → 0 < Size f → Offset f + Size f < 2 ^ 64 →
  len data ≤ MaxInt →
  readSlice data f ptrSize littleEndian = Ok s →
  Offset f + Size f ≤ len data.
Proof.
  intros Hoff Hsize Hsum Hlen Hslice.
  destruct (Z_le_gt_dec (Offset f + Size f) (len data)) as [Hroom | Hout];
    [exact Hroom |].
  destruct (read_out_of_bounds_no_wrap data f ptrSize littleEndian)
    as [_ Herr]; [lia .. |].
  rewrite Herr in Hslice. discriminate Hslice.
Qed.

(** X17: in every registry entry that has them, the later scalar fields
    overlap the common slices: whatever the buffer, the value read for
    read-only data is the capacity word of the type links, the value read
    for the go-func blob is the data word of the interface-table links, and
    the coverage counters and their end are the length and capacity words
    of the interface-table links. *)
Theorem registry_later_fields_overlap (data : byteslice) (key : string)
    (layout : ModuleDataLayout.t) (littleEndian : bool)
    (typelinks itablinks : GoSlice64.t) :
  versionLayoutMap !! key = Some layout →
  len data ≤ MaxInt →
  readSlice data (Typelinks layout) (PtrSize layout) littleEndian
    = Ok typelinks →
  readSlice data (ITablinks layout) (PtrSize layout) littleEndian
    = Ok itablinks →
  (Size (Rodata layout) ≠ 0 →
   readField data (Rodata layout) littleEndian
     = Ok (GoSlice64.Capacity typelinks) ∧
   readField data (Gofunc layout) littleEndian
     = Ok (GoSlice64.Data itablinks)) ∧
  (Size (Covctrs layout) ≠ 0 →
   readField data (Covctrs layout) littleEndian
     = Ok (GoSlice64.Len itablinks) ∧
   readField data (Ecovctrs layout) littleEndian
     = Ok (GoSlice64.Capacity itablinks)).
Proof.
  intros Hkey Hlen Htl Hitl. apply versionLayoutMap_entry in Hkey.
  pose proof versionLayoutEntries_overlap as Hover.
  pose proof versionLayoutEntries_ok as Hok.
  rewrite Forall_forall in Hover, Hok.
  specialize (Hover _ Hkey) as [Hro Hcov].
  specialize (Hok _ Hkey) as (Hptr & _ & Hsl). cbn [snd] in *.
  unfold ModuleDataLayout.slices in Hsl.
  apply Forall_cons in Hsl as [(_ & Htloff & Htlext) Hsl].
  apply Forall_cons in Hsl as [(_ & Hitloff & Hitlext) _].
  unfold registryExtent in *.
  destruct (Typelinks layout) as [tlo tls] eqn:Etl.
  destruct (ITablinks layout) as [ito its] eqn:Eitl.
  cbn [Offset Size] in *.
  split.
  - intros Hpresent.
    destruct Hro as [Habsent | (-> & -> & -> & ->)]; [contradiction |].
    assert (Hin1 : tlo + 3 * PtrSize layout ≤ len data)
      by (pose proof Htl as Hin; apply readSlice_Ok_in_bounds in Hin;
          cbn [Offset Size] in *; lia).
    assert (Hin2 : ito + 3 * PtrSize layout ≤ len data)
      by (pose proof Hitl as Hin; apply readSlice_Ok_in_bounds in Hin;
          cbn [Offset Size] in *; lia).
    destruct (slice_words_as_fields _ _ _ _ _ Hptr Htloff Hin1 Hlen Htl)
      as (_ & _ & Hcap).
    destruct (slice_words_as_fields _ _ _ _ _ Hptr Hitloff Hin2 Hlen Hitl)
      as (Hdata & _ & _).
    by split.
  - intros Hpresent.
    destruct Hcov as [Habsent | (-> & -> & ->)]; [contradiction |].
    assert (Hin2 : ito + 3 * PtrSize layout ≤ len data)
      by (pose proof Hitl as Hin; apply readSlice_Ok_in_bounds in Hin;
          cbn [Offset Size] in *; lia).
    destruct (slice_words_as_fields _ _ _ _ _ Hptr Hitloff Hin2 Hlen Hitl)
      as (_ & Hlength & Hcap).
    by split.
Qed.

Lemma registry_later_fields_overlap_witness :
  let data := MkSlice (replicate 304 Byte.xff) [] in
  let layout := getLayout "1.20" true in
  let ones := GoSlice64.mk 0xffffffffffffffff 0xffffffffffffffff
                0xffffffffffffffff in
  versionLayoutMap !! "1.20_64" = Some layout ∧
  len data ≤ MaxInt ∧
  readSlice data (Typelinks layout) (PtrSize layout) true = Ok ones ∧
  readSlice data (ITablinks layout) (PtrSize layout) true = Ok ones ∧
  (Size (Rodata layout) ≠ 0 →
   readField data (Rodata layout) true = Ok (GoSlice64.Capacity ones) ∧
   readField data (Gofunc layout) true = Ok (GoSlice64.Data ones)) ∧
  (Size (Covctrs layout) ≠ 0 →
   readField data (Covctrs layout) true = Ok (GoSlice64.Len ones) ∧
   readField data (Ecovctrs layout) true = Ok (GoSlice64.Capacity ones)).
Proof.
  intros data layout ones.
  assert (H1 : versionLayoutMap !! "1.20_64" = Some layout)
    by (vm_compute; reflexivity).
  assert (H2 : len data ≤ MaxInt) by (vm_compute; discriminate).
  assert (H3 : readSlice data (Typelinks layout) (PtrSize layout) true
               = Ok ones) by (vm_compute; reflexivity).
  assert (H4 : readSlice data (ITablinks layout) (PtrSize layout) true
               = Ok ones) by (vm_compute; reflexivity).
  repeat (split; [assumption |]).
  exact (registry_later_fields_overlap data "1.20_64" layout true ones ones
           H1 H2 H3 H4).
Defined.

(** * The test helper that builds a buffer *)

Lemma writeAt_ok (is64bit : bool) (buf : byteslice) (f : FieldOffset)
    (ptrSize value : Z) :
  ptrSize = 4 ∨ ptrSize = 8 → scalarFieldOk ptrSize f → len buf = 1024 →
  ∃ buf', writeAt is64bit buf f value = Ok buf' ∧ len buf' = 1024.
Proof.
  intros Hptr (Hsize & Hoff & Hext) Hlen. unfold registryExtent in Hext.
  unfold writeAt. destruct (Size f =? 0); [eauto |]. destruct is64bit.
  - destruct (LittleEndian_PutUint64_spec buf (Offset f) value)
      as (buf' & -> & Hlen' & _); [lia .. |].
    exists buf'. split; [reflexivity | lia].
  - destruct (LittleEndian_PutUint32_spec buf (Offset f) (wrap32 value))
      as (buf' & -> & Hlen' & _); [lia .. |].
    exists buf'. split; [reflexivity | lia].
Qed.

Lemma writeSlice_ok (is64bit : bool) (buf : byteslice) (f : FieldOffset)
    (ptrSize d l c : Z) :
  ptrSize = 4 ∨ ptrSize = 8 → sliceFieldOk ptrSize f → len buf = 1024 →
  ∃ buf', writeSlice is64bit buf f d l c = Ok buf' ∧ len buf' = 1024.
Proof.
  intros Hptr (Hsize & Hoff & Hext) Hlen. unfold registryExtent in Hext.
  unfold writeSlice, wrap64. destruct (Size f =? 0); [eauto |].
  rewrite !Z.mod_small by lia. destruct is64bit.
  - destruct (LittleEndian_PutUint64_spec buf (Offset f) d)
      as (buf1 & -> & Hlen1 & _); [lia .. |].
    destruct (LittleEndian_PutUint64_spec buf1 (Offset f + 8) l)
      as (buf2 & Hput2 & Hlen2 & _); [lia .. |].
    destruct (LittleEndian_PutUint64_spec buf2 (Offset f + 16) c)
      as (buf3 & Hput3 & Hlen3 & _); [lia .. |].
    cbn [mbind result_bind]. rewrite Hput2. cbn [mbind result_bind].
    exists buf3. split; [exact Hput3 | lia].
  - destruct (LittleEndian_PutUint32_spec buf (Offset f) (wrap32 d))
      as (buf1 & -> & Hlen1 & _); [lia .. |].
    destruct (LittleEndian_PutUint32_spec buf1 (Offset f + 4) (wrap32 l))
      as (buf2 & Hput2 & Hlen2 & _); [lia .. |].
    destruct (LittleEndian_PutUint32_spec buf2 (Offset f + 8) (wrap32 c))
      as (buf3 & Hput3 & Hlen3 & _); [lia .. |].
    cbn [mbind result_bind]. rewrite Hput2. cbn [mbind result_bind].
    exists buf3. split; [exact Hput3 | lia].
Qed.

Lemma bind_len1024 (r : result byteslice) (f : byteslice → result byteslice) :
  (∃ b, r = Ok b ∧ len b = 1024) →
  (∀ b, len b = 1024 → ∃ b', f b = Ok b' ∧ len b' = 1024) →
  ∃ b', r ≫= f = Ok b' ∧ len b' = 1024.
Proof. intros (b & -> & Hlen) Hf. cbn. by apply Hf. Qed.

(** X18: the test helper [createTestModuleData] returns a buffer of 1024
    bytes for every version string and bitness; none of its writes falls
    outside the buffer. *)
Theorem createTestModuleData_total (version : string) (is64bit : bool) :
  ∃ buf, createTestModuleData version is64bit = Ok buf ∧ len buf = 1024.
Proof.
  unfold createTestModuleData. layout_facts version is64bit. cbv zeta.
  assert (Hmake : len (make 1024) = 1024) by reflexivity.
  revert Hmake. generalize (make 1024). intros buf Hbuf.
  repeat first
    [ apply bind_len1024;
      [ first [ eapply writeAt_ok | eapply writeSlice_ok ]; eassumption
      | clear dependent buf; intros buf Hbuf ]
    | first [ eapply writeAt_ok | eapply writeSlice_ok ]; eassumption
    | match goal with
      | |- context [ if String.eqb ?a ?b then _ else _ ] =>
          destruct (String.eqb a b)
      | |- context [ if String.leb ?a ?b then _ else _ ] =>
          destruct (String.leb a b)
      end
    | by eauto ].
Qed.

(** * Legacy types *)

(** Where the parser reads the legacy-types slice, the layout has it at the
    place of the type links. *)
Lemma legacy_types_layout (version : string) (is64bit : bool) :
  strings.HasPrefix version "1.5" = true →
  LegacyTypes (getLayout version is64bit)
  = Typelinks (getLayout version is64bit).
Proof.
  intros Hprefix. unfold getLayout.
  destruct (versionLayoutMap !! layoutKey version is64bit) as [layout|]
    eqn:Hkey; [| reflexivity].
  apply versionLayoutMap_entry in Hkey. unfold versionLayoutEntries in Hkey.
  repeat (apply elem_of_cons in Hkey as [Hkey | Hkey];
          [injection Hkey as Hk -> |]);
    [.. | by apply elem_of_nil in Hkey];
    first
      [ reflexivity
      | exfalso; unfold layoutKey in Hk; destruct is64bit;
        [ invert_key64 Hk version | subst version ];
        vm_compute in Hprefix; discriminate Hprefix ].
Qed.

(** X19: for a version string that starts with "1.5", the legacy-types
    slice of a parsed record is a second copy of its type links: the
    registry gives both fields the same offset and size. *)
Theorem parsed_legacy_types (data : byteslice) (version : string)
    (is64bit littleEndian : bool) (md : ModuleData.t) :
  strings.HasPrefix version "1.5" = true →
  ParseModuleData data version is64bit littleEndian = Ok md →
  ModuleData.LegacyTypes md = ModuleData.Typelinks md.
Proof.
  intros Hprefix Hparse.
  destruct (parsed_common_fields _ _ _ _ _ Hparse)
    as (_ & _ & _ & Htl & _ & Hlegacy).
  rewrite Hprefix, (legacy_types_layout _ _ Hprefix) in Hlegacy.
  congruence.
Qed.

Lemma parsed_legacy_types_witness :
  strings.HasPrefix "1.5" "1.5" = true ∧
  ∃ md,
    ParseModuleData (MkSlice (replicate 304 Byte.xff) []) "1.5" true true
      = Ok md ∧
    ModuleData.LegacyTypes md = ModuleData.Typelinks md.
Proof.
  assert (Hprefix : strings.HasPrefix "1.5" "1.5" = true) by reflexivity.
  split; [exact Hprefix |]. eexists.
  refine ((λ Hparse,
            conj Hparse
              (parsed_legacy_types _ "1.5" true true _ Hprefix Hparse)) _).
  vm_compute. reflexivity.
Defined.

(** * Bounds errors of the readers *)

(** No field of a layout [getLayout] returns has a sum of offset and size
    that wraps around: every field ends at byte [0x130] at most. *)
Lemma getLayout_fields_no_wrap (version : string) (is64bit : bool)
    (f : FieldOffset) :
  f ∈ ModuleDataLayout.fields (getLayout version is64bit) →
  0 ≤ Offset f ∧ 0 ≤ Size f ∧ Offset f + Size f < 2 ^ 64.
Proof.
  intros Hf. destruct (getLayout_ok version is64bit) as (Hptr & Hsc & Hsl).
  unfold ModuleDataLayout.fields in Hf. apply elem_of_app in Hf.
  rewrite Forall_forall in Hsc, Hsl.
  destruct Hf as [Hf | Hf];
    [destruct (Hsc _ Hf) as (? & ? & ?) | destruct (Hsl _ Hf) as (? & ? & ?)];
    unfold registryExtent in *; lia.
Qed.



